(** * Verification of the classification-consensus, incident-tracking and
      ticket-delivery core of the whatsappbot services.

    Source files embedded here:
    - services/classifier-service/testing/voting_system.py   (module Voting)
    - services/ticket-service/app/services/ticket_queue.py   (module Queue)
    - services/ticket-service/app/main.py, create_ticket      (module TicketApi)
    - services/classifier-service/app/utils/conversation_tracker.py (module Tracker)
    - services/classifier-service/app/ai/model_manager.py     (module Gateway)
    - services/classifier-service/app/agents/classifier.py    (module Fallback)

    Python floats are modelled as exact rationals [Q]; [round(x, 3)] is
    rounding of the exact value to the nearest multiple of 1/1000, ties to
    even.  CPython rounds the binary double instead, so the two can differ
    on decimal ties ([round(0.0025, 3)] is [0.003] in CPython, [0.002]
    here); the statements proved below about rounded values (ranges,
    monotonicity, the rounding formula itself) do not depend on it. *)

From Stdlib Require Import QArith Qround ZArith List Ascii String Bool Lia Lqa Permutation.
Import ListNotations.
Set Warnings "-register-all".

(** ** Python helpers shared by the modules *)
Module Py.

Local Open Scope Q_scope.

(** [round(x, 3)]: nearest integer of [x * 1000], ties to even, over 1000. *)
Definition round_half_even (y : Q) : Z :=
  let z := Qfloor y in
  let f := y - inject_Z z in
  if negb (Qle_bool (1#2) f) then z
  else if Qeq_bool f (1#2) then (if Z.even z then z else (z + 1)%Z)
  else (z + 1)%Z.

Definition round3 (x : Q) : Q := round_half_even (x * 1000) # 1000.

(** [min(x, y)] and [max(x, y)] on floats (value-wise). *)
Definition pymin (x y : Q) : Q := if Qle_bool x y then x else y.
Definition pymax (x y : Q) : Q := if Qle_bool y x then x else y.

(** A value with at most three decimal places. *)
Definition at_most_3_decimals (q : Q) : Prop := exists z : Z, q == z # 1000.

(** [str(b)] for a Python bool. *)
Definition str_bool (b : bool) : string := if b then "True" else "False".

End Py.

(** ** voting_system.py: [VotingSystem.consensus] *)
Module Voting.

Local Open Scope Q_scope.

(** A classifier result dict.  [es_incidencia = None] is a provider error;
    [confianza] is [result.get('confianza', 0.0)]; [metadata] is
    [result.get('metadata', {})]. *)
Record opinion := mkOpinion {
  es_incidencia : option bool;
  confianza : Q;
  categoria : option string;
  prioridad : option string;
  metadata : list (string * string)
}.

Inductive tipo := ambos_si | ambos_no | discrepancia | error_parcial | error_ambos.

(** The returned dict; the ['comparacion'] report only copies fields of the
    two inputs and is not modelled. *)
Record result := mkResult {
  r_es_incidencia : option bool;
  r_confianza : Q;
  r_categoria : option string;
  r_prioridad : option string;
  r_metadata : list (string * string);
  r_tipo : tipo;
  r_modelos_acuerdo : list string;
  r_modelo_primario : option string;
  r_requiere_revision : bool;
  r_razon_discrepancia : option string;
  r_modelo_con_error : option string
}.

Definition caso_ambos_si (c o : opinion) : result :=
  let claude_conf := confianza c in
  let openai_conf := confianza o in
  let confianza_promedio := (claude_conf + openai_conf) / 2 in
  let confianza_final := Py.pymin (confianza_promedio * (11 # 10)) 1 in
  let p := if Qle_bool openai_conf claude_conf then c else o in
  mkResult (Some true) (Py.round3 confianza_final)
    (categoria p) (prioridad p) (metadata p) ambos_si
    ["claude"; "openai"]%string
    (Some (if Qle_bool openai_conf claude_conf then "claude" else "openai")%string)
    false None None.

Definition caso_ambos_no (c o : opinion) : result :=
  let confianza_final := Py.pymax (confianza c) (confianza o) in
  mkResult (Some false) (Py.round3 confianza_final) None None [] ambos_no
    ["claude"; "openai"]%string (Some "consensus"%string) false None None.

Definition caso_discrepancia (c o : opinion) : result :=
  let claude_conf := confianza c in
  let openai_conf := confianza o in
  let claude_es_inc := es_incidencia c in
  let '(p, modelo_primario) :=
    if Qlt_le_dec openai_conf claude_conf then (c, "claude"%string)
    else (o, "openai"%string) in
  let confianza_final := confianza p * (85 # 100) in
  let ci := match claude_es_inc with Some b => b | None => false end in
  mkResult (es_incidencia p) (Py.round3 confianza_final)
    (categoria p) (prioridad p) (metadata p) discrepancia
    [modelo_primario] (Some modelo_primario) true
    (Some ("Claude dice " ++ Py.str_bool ci ++ ", OpenAI dice "
           ++ Py.str_bool (negb ci))%string)
    None.

Definition caso_error (c o : opinion) : result :=
  let valid :=
    match es_incidencia c, es_incidencia o with
    | Some _, _ => Some (c, "claude"%string)
    | None, Some _ => Some (o, "openai"%string)
    | None, None => None
    end in
  match valid with
  | None =>
      mkResult None 0 None None [] error_ambos [] None true None None
  | Some (v, modelo_valido) =>
      mkResult (es_incidencia v) (Py.round3 (confianza v * (75 # 100)))
        (categoria v) (prioridad v) (metadata v) error_parcial
        [modelo_valido] (Some modelo_valido) true None
        (Some (if String.eqb modelo_valido "claude" then "openai" else "claude")%string)
  end.

Definition consensus (c o : opinion) : result :=
  match es_incidencia c, es_incidencia o with
  | Some true, Some true => caso_ambos_si c o
  | Some false, Some false => caso_ambos_no c o
  | Some a, Some b => if negb (Bool.eqb a b) then caso_discrepancia c o else caso_error c o
  | _, _ => caso_error c o
  end.

End Voting.

(** ** ticket_queue.py: [TicketQueue] over the Redis list ["pending_tickets"]
    and the status keys ["ticket_status:<id>"] *)
Module Queue.

Local Open Scope nat_scope.

(** A queue item as serialised by [add_ticket]. *)
Record item := mkItem {
  id : string;
  ticket_data : string;
  attempts : nat;
  max_attempts : nat;
  created_at : string;
  status : string;
  error : option string
}.

(** The dict stored under ["ticket_status:<id>"]. *)
Record status_entry := mkStatus {
  st_status : string;
  st_ticket_id : option string;
  st_attempts : option nat;
  st_error : option string
}.

(** The ["tickets:created"] event published on success. *)
Record created_event := mkEvent { ev_ticket_id : string; ev_queue_id : string }.

(** Outcome of one [ZohoClient.initialize()] + [create_ticket] attempt. *)
Inductive outcome := Created (ticket_id : string) | Failed (err : string).

(** Redis and the process state the queue touches.  [calls] counts backend
    attempts and [attempted] logs the queue ids attempted, in order. *)
Record state := mkState {
  queue : list item;
  statuses : list (string * status_entry);
  events : list created_event;
  calls : nat;
  attempted : list string
}.

Section WithBackend.

(** The ticketing backend: the answer to the [n]-th creation attempt. *)
Variable zoho : nat -> item -> outcome.

Definition status_key (queue_id : string) : string := "ticket_status:" ++ queue_id.

(** [set_cache]: overwrite (most recent first). *)
Definition set_status (st : state) (k : string) (v : status_entry) : state :=
  mkState (queue st) ((k, v) :: statuses st) (events st) (calls st) (attempted st).

Fixpoint lookup {A} (k : string) (l : list (string * A)) : option A :=
  match l with
  | [] => None
  | (k', v) :: l' => if String.eqb k k' then Some v else lookup k l'
  end.

(** [get_ticket_status]: the stored status, or ['not_found']. *)
Definition get_ticket_status (st : state) (queue_id : string) : string :=
  match lookup (status_key queue_id) (statuses st) with
  | Some e => st_status e
  | None => "not_found"
  end.

(** [LPUSH] adds at the head, [RPOP] removes at the tail. *)
Definition lpush (it : item) (st : state) : state :=
  mkState (it :: queue st) (statuses st) (events st) (calls st) (attempted st).

Definition rpop (l : list item) : option (item * list item) :=
  match rev l with
  | [] => None
  | x :: r => Some (x, rev r)
  end.

(** [add_ticket] with [uuid4().hex] given as [hex].  The two Redis writes
    fail differently: [self.redis.redis.lpush] raises, and the exception
    is logged and re-raised ([push_error]); [self.redis.set_cache] catches
    its own errors and returns [False], which [add_ticket] ignores, so
    with [set_ok = false] the item is queued and the id returned while no
    status is stored.  [inl e] is the exception [add_ticket] raises. *)
Definition add_ticket (push_error : option string) (set_ok : bool) (hex : string)
    (data now : string) (st : state) : string + (string * state) :=
  let queue_id := ("queue_" ++ substring 0 8 hex)%string in
  let queue_item := mkItem queue_id data 0 10 now "queued" None in
  match push_error with
  | Some e => inl e
  | None =>
      let st1 := lpush queue_item st in
      if set_ok then inr (queue_id, set_status st1 (status_key queue_id) (mkStatus "queued" None None None))
      else inr (queue_id, st1)
  end.

(** One iteration of the [while True] body of [process_queue], for the item
    just popped; [st] is the state after the pop.  Returns the increment of
    [processed_count]. *)
Definition process_item (it : item) (st : state) : state * nat :=
  let n := calls st in
  let st := mkState (queue st) (statuses st) (events st) (S n)
                    (attempted st ++ [id it]) in
  match zoho n it with
  | Created ticket_id =>
      let st1 := set_status st (status_key (id it))
                   (mkStatus "completed" (Some ticket_id) None None) in
      (mkState (queue st1) (statuses st1)
         (events st1 ++ [mkEvent ticket_id (id it)]) (calls st1) (attempted st1), 1%nat)
  | Failed e =>
      let it' := mkItem (id it) (ticket_data it) (S (attempts it)) (max_attempts it)
                   (created_at it) (status it) (Some e) in
      if Nat.ltb (attempts it') (max_attempts it') then
        (set_status (lpush it' st) (status_key (id it))
           (mkStatus "retrying" None (Some (attempts it')) (Some e)), 0%nat)
      else
        (set_status st (status_key (id it))
           (mkStatus "failed" None (Some (attempts it')) (Some e)), 0%nat)
  end.

(** [process_queue]: pop until the list is empty.  [fuel] bounds the
    iterations; [None] means the fuel ran out before the list emptied. *)
Fixpoint process_queue (fuel : nat) (st : state) : option (nat * state) :=
  match rpop (queue st) with
  | None => Some (0, st)
  | Some (it, rest) =>
      match fuel with
      | O => None
      | S fuel' =>
          let '(st1, k) :=
            process_item it (mkState rest (statuses st) (events st) (calls st) (attempted st)) in
          match process_queue fuel' st1 with
          | Some (cnt, st2) => Some (k + cnt, st2)
          | None => None
          end
      end
  end.

End WithBackend.

End Queue.

(** ** ticket-service main.py: the [POST /tickets] handler [create_ticket] *)
Module TicketApi.

Inductive response :=
  | TicketResponse (ticket_id status message : string)
  | HTTPException (status_code : nat) (detail : string).

(** [create_ticket]: [zoho] is the outcome of [zoho_client.create_ticket],
    [publish_error] the exception raised by [publish_message], if any;
    [push_error] and [set_ok] are the behaviour of the two Redis writes of
    [ticket_queue.add_ticket] (see [Queue.add_ticket]). *)
Definition create_ticket (zoho : Queue.outcome) (publish_error : option string)
    (push_error : option string) (set_ok : bool) (hex data now : string) (st : Queue.state)
    : response * Queue.state :=
  let queue_path :=
    match Queue.add_ticket push_error set_ok hex data now st with
    | inr (queue_id, st') =>
        (TicketResponse queue_id "queued"
           "Zoho is unavailable. Ticket queued for processing.", st')
    | inl e => (HTTPException 500 e, st)
    end in
  match zoho with
  | Queue.Created ticket_id =>
      match publish_error with
      | None => (TicketResponse ticket_id "created" "Ticket created successfully", st)
      | Some _ => queue_path
      end
  | Queue.Failed _ => queue_path
  end.

End TicketApi.

(** ** conversation_tracker.py: [ConversationTracker] *)
Module Tracker.

Local Open Scope string_scope.

(** Python [needle in hay] on strings (byte-wise on the UTF-8 encoding,
    which agrees with code-point containment on well-formed text). *)
Fixpoint contains (needle hay : string) : bool :=
  String.prefix needle hay ||
  match hay with
  | EmptyString => false
  | String _ hay' => contains needle hay'
  end.

(** Redis glob matching for the patterns the tracker builds: [*] matches any
    run of characters, [?] one character, everything else itself. *)
Fixpoint glob (p s : string) : bool :=
  match p with
  | EmptyString => match s with EmptyString => true | String _ _ => false end
  | String c p' =>
      if Ascii.eqb c "*"%char then
        (fix star (s : string) : bool :=
           glob p' s || match s with EmptyString => false | String _ s' => star s' end) s
      else
        match s with
        | EmptyString => false
        | String d s' => (Ascii.eqb c "?"%char || Ascii.eqb c d) && glob p' s'
        end
  end.

(** The incident dict stored by [register_incident].  ISO timestamps of
    [datetime.now().isoformat()] are kept as microseconds since a fixed
    origin: the source sorts them as strings, and equal-format ISO strings
    order as the instants they denote. *)
Record incident := mkIncident {
  ticket_id : string;
  original_message_id : string;
  group_id : string;
  user : option string;
  timestamp : Z;
  message_text : string;
  thread_messages : list string;
  last_update : Z
}.

Record quoted := mkQuoted {
  q_text : string;          (** [quoted.get('text', '')] *)
  q_participant : string    (** [quoted.get('participant', '')] *)
}.

Record message := mkMessage {
  m_id : string;
  m_text : string;
  m_group_id : option string;
  m_from_user : option string;
  m_participant : option string;
  m_quoted : option quoted
}.

(** Redis as seen by the tracker: key -> incident dict (expired keys are
    absent). *)
Definition store := list (string * incident).

Definition INCIDENT_TTL : Z := 7200.
Definition TICKET_PREFIX : string := "incident:active:".

(** Microseconds per second ([timedelta(seconds=...)]). *)
Definition usec : Z := 1000000.

Definition truthy (o : option string) : bool :=
  match o with Some s => negb (String.eqb s "") | None => false end.

(** Python [a or b] on optional strings. *)
Definition py_or (a b : option string) : option string := if truthy a then a else b.

(** [message_data.get('group_id') or message_data.get('from_user')] *)
Definition context_key (m : message) : option string := py_or (m_group_id m) (m_from_user m).

Definition get_cache (s : store) (k : string) : option incident := Queue.lookup k s.

(** [set_cache]: the key now holds the new value. *)
Definition set_cache (s : store) (k : string) (v : incident) : store :=
  (k, v) :: filter (fun e => negb (String.eqb (fst e) k)) s.

Definition scan_keys (s : store) (pattern : string) : list string :=
  map fst (filter (fun e => glob pattern (fst e)) s).

Definition is_ticket_active (s : store) (tid : string) : bool :=
  match scan_keys s (TICKET_PREFIX ++ "*:" ++ tid) with [] => false | _ => true end.

Definition is_digit (c : Ascii.ascii) : bool :=
  (Nat.leb 48 (Ascii.nat_of_ascii c) && Nat.leb (Ascii.nat_of_ascii c) 57)%bool.

(** The greedy [(\d+)] group: the longest run of digits at the start. *)
Fixpoint digit_run (s : string) : string :=
  match s with
  | String c s' => if is_digit c then String c (digit_run s') else EmptyString
  | EmptyString => EmptyString
  end.

Fixpoint strip_prefix (p s : string) : option string :=
  match p, s with
  | EmptyString, _ => Some s
  | String c p', String d s' => if Ascii.eqb c d then strip_prefix p' s' else None
  | String _ _, EmptyString => None
  end.

(** [re.search(lit + r'(\d+)', s).group(1)]: leftmost position where the
    literal is followed by at least one digit. *)
Fixpoint search_ticket (lit s : string) : option string :=
  let here :=
    match strip_prefix lit s with
    | Some rest => match digit_run rest with EmptyString => None | d => Some d end
    | None => None
    end in
  match here with
  | Some d => Some d
  | None => match s with EmptyString => None | String _ s' => search_ticket lit s' end
  end.

Definition patterns : list string := ["Ticket #"; "Ticket "; "ticket #"; "ticket "; "#"].

(** [_extract_ticket_from_quoted] for a message whose quoted part is [q]. *)
Definition extract_ticket_from_quoted (s : store) (bot_number : string) (q : quoted)
    : option string :=
  if negb (contains bot_number (q_participant q)) then None
  else
    (fix loop (ps : list string) : option string :=
       match ps with
       | [] => None
       | p :: ps' =>
           match search_ticket p (q_text q) with
           | Some tid => if is_ticket_active s tid then Some tid else loop ps'
           | None => loop ps'
           end
       end) patterns.

(** [incidents.sort(key=timestamp, reverse=True)]: a stable sort, newest
    first, equal timestamps keeping their scan order. *)
Fixpoint insert_desc (x : incident) (l : list incident) : list incident :=
  match l with
  | [] => [x]
  | y :: l' => if Z.ltb (timestamp x) (timestamp y) then y :: insert_desc x l' else x :: l
  end.

Definition sort_desc (l : list incident) : list incident := fold_right insert_desc [] l.

(** The incidents [_find_recent_incident] fetches for context [gid]. *)
Definition incidents_for (s : store) (gid : string) : list incident :=
  flat_map (fun k => match get_cache s k with Some d => [d] | None => [] end)
    (scan_keys s (TICKET_PREFIX ++ gid ++ ":*")).

(** [_find_recent_incident] at instant [now] (microseconds). *)
Definition find_recent_incident (s : store) (now : Z) (m : message) : option string :=
  match context_key m with
  | None => None
  | Some gid =>
      if String.eqb gid "" then None
      else
        match sort_desc (incidents_for s gid) with
        | [] => None
        | recent :: _ =>
            if Z.ltb (now - timestamp recent) (INCIDENT_TTL * usec)
            then Some (ticket_id recent) else None
        end
  end.

(** [check_existing_incident]. *)
Definition check_existing_incident (s : store) (now : Z) (bot_number : string)
    (m : message) : option string :=
  let t1 := match m_quoted m with
            | Some q => extract_ticket_from_quoted s bot_number q
            | None => None
            end in
  if truthy t1 then t1
  else
    let t2 := find_recent_incident s now m in
    if truthy t2 then t2 else None.

(** [register_incident]; [group_id] is formatted with an f-string, so a
    missing one is written as ["None"]. *)
Definition register_incident (s : store) (now : Z) (m : message) (tid : string) : store :=
  let gid := match context_key m with Some g => g | None => "None" end in
  let usr := py_or (m_from_user m) (m_participant m) in
  let data := mkIncident tid (m_id m) gid usr now (substring 0 200 (m_text m))
                [m_id m] now in
  set_cache s (TICKET_PREFIX ++ gid ++ ":" ++ tid) data.

End Tracker.

(** ** model_manager.py: [AIModelManager.classify_message] *)
Module Gateway.

Local Open Scope string_scope.

(** JSON-like Python values returned by [json.loads]. *)
Inductive pyval :=
  | PNone
  | PBool (b : bool)
  | PNum (q : Q)
  | PStr (s : string)
  | PList (l : list pyval)
  | PDict (d : list (string * pyval)).

(** Python truthiness, as used by [if result:]. *)
Definition truthy (v : pyval) : bool :=
  match v with
  | PNone => false
  | PBool b => b
  | PNum q => negb (Qeq_bool q 0)
  | PStr s => negb (String.eqb s "")
  | PList l => match l with [] => false | _ => true end
  | PDict d => match d with [] => false | _ => true end
  end.

(** What [_call_model] does for one provider: it raises, or returns a value
    ([None] when the provider has no configured client). *)
Inductive call_result := Raised (err : string) | Returned (v : pyval).

Definition dq : string := String (Ascii.ascii_of_nat 34) EmptyString.

(** [_build_classification_prompt]; [context_json] is
    [json.dumps(context or {}, indent=2)].  The constant instruction text
    around the two holes is abbreviated. *)
Definition build_classification_prompt (message_text context_json : string) : string :=
  "Analyze the following WhatsApp message and determine if it represents a technical support incident that requires assistance. Message: "
  ++ dq ++ message_text ++ dq ++ " Context: " ++ context_json
  ++ " Classify this message and respond with a JSON object. Respond only with valid JSON.".

Definition default_classification : pyval :=
  PDict [("is_support_incident", PBool true);
         ("confidence", PNum (1#10));
         ("category", PStr "general_inquiry");
         ("urgency", PStr "medium");
         ("summary", PStr "Mensaje requiere revisión manual");
         ("requires_followup", PBool true);
         ("suggested_response", PStr "Hola, hemos recibido tu mensaje y será revisado por nuestro equipo de soporte. Te responderemos a la brevedad.");
         ("extracted_info", PDict [("user_type", PStr "unknown");
                                   ("product_mentioned", PNone);
                                   ("error_code", PNone);
                                   ("contact_info", PNone)])].

(** [classify_message] with the primary and fallback providers given as
    functions of the prompt. *)
Definition classify_message (primary fallback : string -> call_result)
    (message_text context_json : string) : pyval :=
  let prompt := build_classification_prompt message_text context_json in
  let after_primary :=
    match fallback prompt with
    | Returned result => if truthy result then result else default_classification
    | Raised _ => default_classification
    end in
  match primary prompt with
  | Returned result => if truthy result then result else after_primary
  | Raised _ => after_primary
  end.

(** A provider call that does not yield a result: it raised, or returned a
    falsy value. *)
Definition call_fails (r : call_result) : bool :=
  match r with Raised _ => true | Returned v => negb (truthy v) end.

Definition dict_get (v : pyval) (k : string) : option pyval :=
  match v with PDict d => Queue.lookup k d | _ => None end.

End Gateway.

(** ** classifier.py: [MessageClassifier._fallback_classification] *)
Module Fallback.

Local Open Scope string_scope.

Definition fallback_keywords : list (string * list string) :=
  [("urgent", ["urgente"; "no funciona"; "cerrado"; "sistema caído"; "no pueden vender"; "error"; "crítico"]);
   ("technical", ["pos"; "sistema"; "software"; "aplicación"; "red"; "internet"; "servidor"; "base de datos"]);
   ("operational", ["tienda"; "inventario"; "producto"; "cliente"; "venta"; "caja"; "personal"]);
   ("billing", ["factura"; "cobro"; "pago"; "precio"; "descuento"; "promoción"]);
   ("general", ["pregunta"; "consulta"; "información"; "horario"; "ubicación"])].

Definition keywords_of (cat : string) : list string :=
  match Queue.lookup cat fallback_keywords with Some ks => ks | None => [] end.

Definition incident_indicators : list string :=
  keywords_of "urgent" ++ ["problema"; "ayuda"; "falla"; "no puede"; "error"; "roto"].

Record classification_response := mkResponse {
  is_support_incident : bool;
  confidence : Q;
  category : string;
  urgency : string;
  summary : string;
  requires_followup : bool;
  suggested_response : string;
  classification_method : string;
  trigger_words_count : nat;
  trigger_words : list string
}.

(** The keywords of [fallback_keywords] occurring in [text_lower], in dict
    iteration order ([found_words] before deduplication). *)
Definition found_words (text_lower : string) : list string :=
  flat_map (fun e => filter (fun k => Tracker.contains k text_lower) (snd e)) fallback_keywords.

Definition any_in (ks : list string) (text_lower : string) : bool :=
  existsb (fun k => Tracker.contains k text_lower) ks.

(** [list(set(xs))]: the same elements without duplicates, in the order
    the set iterates them, which depends on the string hashes and so on the
    interpreter's hash seed. *)
Definition set_order_ok (set_list : list string -> list string) : Prop :=
  forall l, NoDup (set_list l) /\ (forall x, In x (set_list l) <-> In x l).

Section Classify.

(** [str.lower] and the iteration order of [list(set(...))]. *)
Variable lower : string -> string.
Variable set_list : list string -> list string.

Definition extract_trigger_words (text : string) : list string :=
  set_list (found_words (lower text)).

Definition fallback_classification (text : string) : classification_response :=
  let text_lower := lower text in
  let trigger_words := extract_trigger_words text in
  let is_incident := any_in incident_indicators text_lower in
  let '(category, urgency) :=
    if any_in (keywords_of "urgent") text_lower then ("technical", "critical")
    else if any_in (keywords_of "technical") text_lower then ("technical", "medium")
    else if any_in (keywords_of "billing") text_lower then ("billing", "medium")
    else if any_in (keywords_of "operational") text_lower then ("general_inquiry", "low")
    else if is_incident then ("technical", "medium")
    else ("not_support", "low") in
  let confidence :=
    if is_incident then Py.pymin (8#10) (inject_Z (Z.of_nat (List.length trigger_words)) * (2#10))
    else 3#10 in
  let suggested_response :=
    if is_incident then "Hemos recibido tu reporte y será atendido por nuestro equipo técnico. Te mantendremos informado del progreso."
    else "Gracias por tu mensaje. ¿En qué podemos ayudarte?" in
  mkResponse is_incident confidence category urgency
    (match trigger_words with
     | [] => "Mensaje general"
     | _ => "Mensaje clasificado por palabras clave: " ++ String.concat ", " (firstn 3 trigger_words)
     end)
    (negb (Qle_bool (6#10) confidence))
    suggested_response "keyword_fallback" (List.length trigger_words) trigger_words.

End Classify.

(** Deduplication keeping first occurrences: one admissible set order. *)
Fixpoint dedup (l : list string) : list string :=
  match l with
  | [] => []
  | x :: l' => if existsb (String.eqb x) l' then dedup l' else x :: dedup l'
  end.

End Fallback.

(** ** Sample data for the tracker: a group, the bot, a first report and a
    reply that quotes another user's message. *)
Module TrackerFixtures.

Import Tracker.
Local Open Scope string_scope.

Definition bot_number : string := "5215530482752".
Definition group : string := "120363041234567890@g.us".

Definition first_msg : message :=
  mkMessage "msg-1" "El sistema POS no funciona urgente, no pueden vender"
    (Some group) (Some "5215511112222@s.whatsapp.net") None None.

(** A reply quoting a user (not the bot) whose text looks like a ticket
    reference. *)
Definition user_quote_msg : message :=
  mkMessage "msg-2" "sigue sin funcionar"
    (Some group) (Some "5215599998888@s.whatsapp.net") None
    (Some (mkQuoted "Ticket #12345" "5215533334444@s.whatsapp.net")).

(** The store after [first_msg] was registered as ticket 777 at instant 0. *)
Definition registered : store := register_incident [] 0 first_msg "777".

End TrackerFixtures.

(** ** conversation_tracker.py: [add_message_to_thread] *)
Module TrackerThread.

Import Tracker.
Local Open Scope string_scope.

(** [add_message_to_thread]: the first key matching the ticket gets the
    message id appended to its thread and [last_update] refreshed (the
    ['last_message'] excerpt it also stores is not modelled).  Returns the
    success flag and the new store. *)
Definition add_message_to_thread (s : store) (now : Z) (tid message_id : string)
    : bool * store :=
  match scan_keys s (TICKET_PREFIX ++ "*:" ++ tid) with
  | [] => (false, s)
  | key :: _ =>
      match get_cache s key with
      | None => (false, s)
      | Some inc =>
          let inc' := mkIncident (ticket_id inc) (original_message_id inc) (group_id inc)
                        (user inc) (timestamp inc) (message_text inc)
                        (thread_messages inc ++ [message_id]) now in
          (true, set_cache s key inc')
      end
  end.

(** [get_thread_summary]: the incident under the first key of the
    ticket, if any. *)
Definition get_thread_summary (s : store) (tid : string) : option incident :=
  match scan_keys s (TICKET_PREFIX ++ "*:" ++ tid) with
  | [] => None
  | key :: _ => get_cache s key
  end.

(** A string made of decimal digits only. *)
Definition all_digits (s : string) : bool := forallb is_digit (list_ascii_of_string s).

(** Text that ends a preceding number for Python's [\d] as well as for
    [digit_run]: empty, or starting with an ASCII character other than a
    digit (a non-ASCII character may be a Unicode digit, which [\d] takes). *)
Definition ends_number (s : string) : bool :=
  match s with
  | EmptyString => true
  | String c _ => Nat.ltb (Ascii.nat_of_ascii c) 128 && negb (is_digit c)
  end.

End TrackerThread.

(** ** ticket-service main.py: [GET /tickets/{ticket_id}/status] *)
Module TicketStatusApi.

Local Open Scope string_scope.

Inductive status_response :=
  | TicketStatus (ticket_id status : string)
  | StatusHTTPException (status_code : nat) (detail : string).

(** [get_ticket_status]: queue ids are answered by
    [ticket_queue.get_ticket_status] from the status keys, other ids by
    [zoho_client.get_ticket_status] ([zoho_status], which raises [inl] or
    returns [inr]).  [read_ok = false] is a failing [get_cache]: it catches
    the error and returns [None], which the queue reports as
    ['not_found']. *)
Definition get_ticket_status (read_ok : bool) (zoho_status : string -> string + string)
    (st : Queue.state) (ticket_id : string) : status_response :=
  if String.prefix "queue_" ticket_id then
    TicketStatus ticket_id
      (if read_ok then Queue.get_ticket_status st ticket_id else "not_found")
  else
    match zoho_status ticket_id with
    | inr status => TicketStatus ticket_id status
    | inl e => StatusHTTPException 500 e
    end.

End TicketStatusApi.

(** Outstanding work of the queue: every item can still be attempted at
    most [max_attempts - attempts] more times after the current one. *)
Definition queue_work (l : list Queue.item) : nat :=
  list_sum (map (fun it => Queue.max_attempts it - Queue.attempts it + 1)%nat l).

(** ** voting_system.py: the two lists of [_generar_comparacion] *)
Module VotingCompare.

Import Voting.
Local Open Scope string_scope.

(** Python [==] on values that may be [None]. *)
Definition opt_eqb {A} (eqb : A -> A -> bool) (x y : option A) : bool :=
  match x, y with
  | Some a, Some b => eqb a b
  | None, None => true
  | _, _ => false
  end.

(** f-string rendering of an optional bool or string. *)
Definition repr_opt_bool (b : option bool) : string :=
  match b with Some b => Py.str_bool b | None => "None" end.

Definition repr_opt_str (s : option string) : string :=
  match s with Some s => s | None => "None" end.

(** The category and priority checks: (differences, agreements). *)
Definition compara_campo (igual distinto : string) (x y : option string)
    : list string * list string :=
  if opt_eqb String.eqb x y then
    match x with Some v => ([], [igual ++ v]) | None => ([], []) end
  else if Tracker.truthy x && Tracker.truthy y then
    ([distinto ++ "Claude=" ++ repr_opt_str x ++ ", OpenAI=" ++ repr_opt_str y], [])
  else ([], []).

(** [comparacion['diferencias']] and [comparacion['coincidencias']]; the
    per-model copies of the input fields are not modelled. *)
Definition generar_comparacion (c o : opinion) : list string * list string :=
  let clas :=
    if opt_eqb Bool.eqb (es_incidencia c) (es_incidencia o) then
      ([], ["Ambos coinciden en clasificación (sí/no incidencia)"])
    else
      (["Clasificación: Claude=" ++ repr_opt_bool (es_incidencia c)
        ++ ", OpenAI=" ++ repr_opt_bool (es_incidencia o)], []) in
  let cat := compara_campo "Misma categoría: " "Categoría: " (categoria c) (categoria o) in
  let pri := compara_campo "Misma prioridad: " "Prioridad: " (prioridad c) (prioridad o) in
  (app (fst clas) (app (fst cat) (fst pri)), app (snd clas) (app (snd cat) (snd pri))).

End VotingCompare.

(** Sample queue runs. *)
Module QueueFixtures.

Import Queue.
Local Open Scope nat_scope.

(** A backend that is down for the first three attempts. *)
Definition zoho_flaky (n : nat) (it : item) : outcome :=
  if Nat.ltb n 3 then Failed "Zoho API timeout"%string
  else Created ("8000" ++ id it)%string.

Definition zoho_down (n : nat) (it : item) : outcome := Failed "Zoho API timeout"%string.

Definition item_a : item := mkItem "queue_1a2b3c4d" "{}" 0 10 "2024-01-01T10:00:00" "queued" None.
Definition item_b : item := mkItem "queue_5e6f7a8b" "{}" 9 10 "2024-01-01T10:05:00" "queued" None.

Definition sample_state : state := mkState [item_b; item_a] [] [] 0 [].

Definition sample_run : option (nat * state) :=
  Eval vm_compute in process_queue zoho_flaky 30 sample_state.

Definition sample_count : nat :=
  match sample_run with Some (c, _) => c | None => 0 end.

Definition sample_final : state :=
  match sample_run with Some (_, s) => s | None => sample_state end.

End QueueFixtures.

(** * Proofs *)

(** ** Rounding *)
Module PyFacts.

Local Open Scope Q_scope.

Lemma Qle_bool_true_iff (x y : Q) : Qle_bool x y = true <-> x <= y.
Proof. apply Qle_bool_iff. Qed.

Lemma round_half_even_bounds (y : Q) :
  (Qfloor y <= Py.round_half_even y <= Qfloor y + 1)%Z.
Proof.
  unfold Py.round_half_even.
  destruct (negb (Qle_bool (1#2) (y - inject_Z (Qfloor y)))); [lia|].
  destruct (Qeq_bool (y - inject_Z (Qfloor y)) (1#2)); [|lia].
  destruct (Z.even (Qfloor y)); lia.
Qed.

(** Rounding is monotone. *)
Lemma round_half_even_mono (y1 y2 : Q) :
  y1 <= y2 -> (Py.round_half_even y1 <= Py.round_half_even y2)%Z.
Proof.
  intros Hle.
  pose proof (Qfloor_resp_le y1 y2 Hle) as Hz.
  pose proof (round_half_even_bounds y1) as B1.
  pose proof (round_half_even_bounds y2) as B2.
  destruct (Z.eq_dec (Qfloor y1) (Qfloor y2)) as [Heq|Hne]; [|lia].
  unfold Py.round_half_even in *.
  rewrite <- Heq in *.
  set (z := Qfloor y1) in *.
  assert (Hf : y1 - inject_Z z <= y2 - inject_Z z).
  { apply Qplus_le_compat; [assumption | apply Qle_refl]. }
  destruct (Qle_bool (1#2) (y1 - inject_Z z)) eqn:E1; simpl; [|lia].
  apply Qle_bool_true_iff in E1.
  assert (E2 : Qle_bool (1#2) (y2 - inject_Z z) = true).
  { apply Qle_bool_true_iff. eapply Qle_trans; eassumption. }
  rewrite E2; simpl.
  destruct (Qeq_bool (y2 - inject_Z z) (1#2)) eqn:F2.
  - apply Qeq_bool_iff in F2.
    assert (F1 : Qeq_bool (y1 - inject_Z z) (1#2) = true).
    { apply Qeq_bool_iff. apply Qle_antisym; [|assumption].
      rewrite <- F2. assumption. }
    rewrite F1. lia.
  - destruct (Qeq_bool (y1 - inject_Z z) (1#2)); [destruct (Z.even z)|]; lia.
Qed.

Lemma round3_mono (x1 x2 : Q) : x1 <= x2 -> Py.round3 x1 <= Py.round3 x2.
Proof.
  intros H. unfold Py.round3.
  assert (Hm : x1 * 1000 <= x2 * 1000).
  { apply Qmult_le_compat_r; [assumption | discriminate]. }
  pose proof (round_half_even_mono _ _ Hm) as R.
  unfold Qle; simpl. nia.
Qed.

Lemma round3_0 : Py.round3 0 == 0.
Proof. reflexivity. Qed.

Lemma round3_1 : Py.round3 1 == 1.
Proof. reflexivity. Qed.

Lemma round3_range (x : Q) : 0 <= x <= 1 -> 0 <= Py.round3 x <= 1.
Proof.
  intros [H0 H1]. split.
  - rewrite <- round3_0 at 1. apply round3_mono; assumption.
  - rewrite <- round3_1. apply round3_mono; assumption.
Qed.

Lemma round3_le_1 (x : Q) : x <= 1 -> Py.round3 x <= 1.
Proof. intros H. rewrite <- round3_1. apply round3_mono; assumption. Qed.

Lemma round3_decimals (x : Q) : Py.at_most_3_decimals (Py.round3 x).
Proof. exists (Py.round_half_even (x * 1000)). reflexivity. Qed.

Lemma pymin_le_r (x y : Q) : Py.pymin x y <= y.
Proof.
  unfold Py.pymin. destruct (Qle_bool x y) eqn:E.
  - apply Qle_bool_true_iff in E; assumption.
  - apply Qle_refl.
Qed.

Lemma pymin_range (x : Q) : 0 <= x -> 0 <= Py.pymin x 1 <= 1.
Proof.
  intros H. split; [|apply pymin_le_r].
  unfold Py.pymin. destruct (Qle_bool x 1); [assumption | discriminate].
Qed.

Lemma pymin_mono (x1 x2 y : Q) : x1 <= x2 -> Py.pymin x1 y <= Py.pymin x2 y.
Proof.
  intros H. unfold Py.pymin.
  destruct (Qle_bool x1 y) eqn:E1; destruct (Qle_bool x2 y) eqn:E2.
  - assumption.
  - apply Qle_bool_true_iff in E1; assumption.
  - apply Qle_bool_true_iff in E2.
    assert (C : Qle_bool x1 y = true) by (apply Qle_bool_true_iff; lra).
    congruence.
  - lra.
Qed.

Lemma pymax_range (x y : Q) : 0 <= x <= 1 -> 0 <= y <= 1 -> 0 <= Py.pymax x y <= 1.
Proof. intros Hx Hy. unfold Py.pymax. destruct (Qle_bool y x); assumption. Qed.

Lemma scale_range (x k : Q) : 0 <= x <= 1 -> 0 <= k <= 1 -> 0 <= x * k <= 1.
Proof. intros [Hx0 Hx1] [Hk0 Hk1]. split; nra. Qed.

End PyFacts.

(** ** Consensus resolver *)
Module VotingFacts.

Import Voting.
Local Open Scope Q_scope.

(** C1 (as stated): with both opinions incident the confidence would be
    [min((a+b)/2 * 1.1, 1.0)] exactly.  It is not: the source returns
    [round(..., 3)], so with [a = b = 0.1234] the result is 0.136 and not
    0.13574. *)
Lemma both_yes_unrounded_counterexample :
  ~ (r_confianza (consensus (mkOpinion (Some true) (1234#10000) None None [])
                            (mkOpinion (Some true) (1234#10000) None None []))
     == Py.pymin (((1234#10000) + (1234#10000)) / 2 * (11#10)) 1).
Proof. vm_compute. discriminate. Qed.

(** C1 (amended): when both opinions are incidents, [consensus] returns an
    incident with confidence [round(min((a+b)/2 * 1.1, 1.0), 3)], takes
    category, priority and metadata from the opinion with the higher
    confidence (ties favour the first), needs no review, and its confidence
    is monotone in both input confidences and at most 1. *)
Theorem both_yes_consensus (a b a' b' : opinion) :
  es_incidencia a = Some true -> es_incidencia b = Some true ->
  es_incidencia a' = Some true -> es_incidencia b' = Some true ->
  let r := consensus a b in
  let p := if Qle_bool (confianza b) (confianza a) then a else b in
  r_es_incidencia r = Some true /\ r_tipo r = ambos_si /\
  r_requiere_revision r = false /\
  r_confianza r = Py.round3 (Py.pymin ((confianza a + confianza b) / 2 * (11#10)) 1) /\
  r_categoria r = categoria p /\ r_prioridad r = prioridad p /\
  r_metadata r = metadata p /\
  (confianza a <= confianza a' -> confianza b <= confianza b' ->
   r_confianza r <= r_confianza (consensus a' b')) /\
  r_confianza r <= 1.
Proof.
  intros Ha Hb Ha' Hb' r p.
  subst r p. unfold consensus. rewrite Ha, Hb, Ha', Hb'. cbn.
  destruct (Qle_bool (confianza b) (confianza a));
    (split; [reflexivity|]); (split; [reflexivity|]); (split; [reflexivity|]);
    (split; [reflexivity|]); (split; [reflexivity|]); (split; [reflexivity|]);
    (split; [reflexivity|]);
    (split; [| apply PyFacts.round3_le_1, PyFacts.pymin_le_r]);
    intros H1 H2; apply PyFacts.round3_mono, PyFacts.pymin_mono; 
    (apply Qmult_le_compat_r; [|discriminate]); unfold Qdiv;
    (apply Qmult_le_compat_r; [lra|discriminate]).
Qed.

Lemma both_yes_consensus_witness :
  (es_incidencia (mkOpinion (Some true) (9#10) None None []) = Some true /\
   es_incidencia (mkOpinion (Some true) (8#10) None None []) = Some true) /\
  r_confianza (consensus (mkOpinion (Some true) (9#10) None None [])
                         (mkOpinion (Some true) (8#10) None None [])) = 935 # 1000.
Proof.
  split; [split; reflexivity|].
  destruct (both_yes_consensus (mkOpinion (Some true) (9#10) None None [])
              (mkOpinion (Some true) (8#10) None None [])
              (mkOpinion (Some true) (9#10) None None [])
              (mkOpinion (Some true) (8#10) None None [])
              eq_refl eq_refl eq_refl eq_refl) as (_ & _ & _ & Hc & _).
  rewrite Hc. vm_compute. reflexivity.
Defined.

(** C8 (as stated): on disagreement the confidence would be the primary's
    confidence times 0.85 exactly.  The source rounds it to 3 decimals:
    with 0.123 against 0.1 the result is 0.105, not 0.10455. *)
Lemma disagreement_unrounded_counterexample :
  ~ (r_confianza (consensus (mkOpinion (Some true) (123#1000) None None [])
                            (mkOpinion (Some false) (1#10) None None []))
     == (123#1000) * (85#100)).
Proof. vm_compute. discriminate. Qed.

(** C8 (amended): when the two opinions disagree, the primary is the first
    opinion if its confidence is strictly higher and the second otherwise
    (so the primary has the higher confidence, ties favour the second), the
    confidence is [round(primary * 0.85, 3)], the reason names what each
    provider said, and review is always required. *)
Theorem disagreement_consensus (a b : opinion) (x y : bool) :
  es_incidencia a = Some x -> es_incidencia b = Some y -> x <> y ->
  let r := consensus a b in
  let p := if Qlt_le_dec (confianza b) (confianza a) then a else b in
  r_tipo r = discrepancia /\ r_requiere_revision r = true /\
  confianza a <= confianza p /\ confianza b <= confianza p /\
  r_es_incidencia r = es_incidencia p /\
  r_confianza r = Py.round3 (confianza p * (85#100)) /\
  r_categoria r = categoria p /\ r_prioridad r = prioridad p /\
  r_modelo_primario r =
    Some (if Qlt_le_dec (confianza b) (confianza a) then "claude" else "openai")%string /\
  r_razon_discrepancia r =
    Some ("Claude dice " ++ Py.str_bool x ++ ", OpenAI dice " ++ Py.str_bool (negb x))%string.
Proof.
  intros Ha Hb Hxy r p. subst r p.
  unfold consensus. rewrite Ha, Hb.
  destruct x, y; try congruence; cbn -[Qlt_le_dec Py.round3];
    unfold caso_discrepancia; rewrite Ha;
    destruct (Qlt_le_dec (confianza b) (confianza a)) as [Hl|Hl]; cbn -[Py.round3];
    repeat split; try lra.
Qed.

Lemma disagreement_consensus_witness :
  (es_incidencia (mkOpinion (Some true) (9#10) None None []) = Some true /\
   es_incidencia (mkOpinion (Some false) (6#10) None None []) = Some false /\
   true <> false) /\
  r_requiere_revision (consensus (mkOpinion (Some true) (9#10) None None [])
                                 (mkOpinion (Some false) (6#10) None None [])) = true.
Proof.
  split; [split; [reflexivity | split; [reflexivity | discriminate]]|].
  destruct (disagreement_consensus (mkOpinion (Some true) (9#10) None None [])
              (mkOpinion (Some false) (6#10) None None []) true false
              eq_refl eq_refl ltac:(discriminate)) as (_ & Hrev & _).
  exact Hrev.
Defined.

(** C10: whenever both input confidences lie in [0,1], the confidence of
    the consensus lies in [0,1] and has at most three decimals, in each of
    the five cases. *)
Theorem consensus_confidence_range (a b : opinion) :
  0 <= confianza a <= 1 -> 0 <= confianza b <= 1 ->
  0 <= r_confianza (consensus a b) <= 1 /\
  Py.at_most_3_decimals (r_confianza (consensus a b)).
Proof.
  intros Ha Hb.
  assert (Hr : forall x, 0 <= x <= 1 ->
             0 <= Py.round3 x <= 1 /\ Py.at_most_3_decimals (Py.round3 x)).
  { intros x Hx. split; [apply PyFacts.round3_range; assumption
                       | apply PyFacts.round3_decimals]. }
  assert (Hsi : 0 <= Py.pymin ((confianza a + confianza b) / 2 * (11#10)) 1 <= 1).
  { apply PyFacts.pymin_range. unfold Qdiv.
    apply Qmult_le_0_compat; [apply Qmult_le_0_compat; [lra | discriminate] | discriminate]. }
  assert (Hno : 0 <= Py.pymax (confianza a) (confianza b) <= 1)
    by (apply PyFacts.pymax_range; assumption).
  assert (Ha85 : 0 <= confianza a * (85#100) <= 1)
    by (apply PyFacts.scale_range; [assumption | split; discriminate]).
  assert (Hb85 : 0 <= confianza b * (85#100) <= 1)
    by (apply PyFacts.scale_range; [assumption | split; discriminate]).
  assert (Ha75 : 0 <= confianza a * (75#100) <= 1)
    by (apply PyFacts.scale_range; [assumption | split; discriminate]).
  assert (Hb75 : 0 <= confianza b * (75#100) <= 1)
    by (apply PyFacts.scale_range; [assumption | split; discriminate]).
  unfold consensus, caso_ambos_si, caso_ambos_no, caso_discrepancia, caso_error.
  destruct (es_incidencia a) as [[|]|] eqn:Ea, (es_incidencia b) as [[|]|] eqn:Eb;
    cbn -[Py.round3 Py.pymin Py.pymax Qlt_le_dec]; try (apply Hr; assumption);
    try (destruct (Qlt_le_dec (confianza b) (confianza a)); cbn -[Py.round3];
         apply Hr; assumption).
  split; [lra | exists 0%Z; reflexivity].
Qed.

Lemma consensus_confidence_range_witness :
  (0 <= 7#10 <= 1 /\ 0 <= 4#10 <= 1) /\
  0 <= r_confianza (consensus (mkOpinion (Some true) (7#10) None None [])
                              (mkOpinion None (4#10) None None [])) <= 1.
Proof.
  assert (H1 : 0 <= 7#10 <= 1) by (split; discriminate).
  assert (H2 : 0 <= 4#10 <= 1) by (split; discriminate).
  split; [split; assumption|].
  apply (consensus_confidence_range (mkOpinion (Some true) (7#10) None None [])
           (mkOpinion None (4#10) None None []) H1 H2).
Defined.

End VotingFacts.

(** ** Delivery queue *)
Module QueueFacts.

Import Queue.
Local Open Scope nat_scope.
Local Open Scope string_scope.

Lemma process_queue_pop (zoho : nat -> item -> outcome) (fuel : nat) (st : state)
    (it : item) (rest : list item) :
  rpop (queue st) = Some (it, rest) ->
  process_queue zoho (S fuel) st =
    let '(st1, k) :=
      process_item zoho it (mkState rest (statuses st) (events st) (calls st) (attempted st)) in
    match process_queue zoho fuel st1 with
    | Some (cnt, st2) => Some (k + cnt, st2)
    | None => None
    end.
Proof. intros H. cbn [process_queue]. rewrite H. reflexivity. Qed.

(** C2: an item popped by [process_queue] whose backend attempt fails has
    its attempts incremented and the error recorded; while the new count is
    below [max_attempts] it is pushed back (status ["retrying"]), otherwise
    its status becomes ["failed"] and it is not pushed back.  The pass then
    continues on the resulting state with nothing counted as processed. *)
Theorem failed_attempt_outcome (zoho : nat -> item -> outcome) (fuel : nat)
    (st : state) (it : item) (rest : list item) (e : string) :
  rpop (queue st) = Some (it, rest) -> zoho (calls st) it = Failed e ->
  let n := S (attempts it) in
  let it' := mkItem (id it) (ticket_data it) n (max_attempts it)
               (created_at it) (status it) (Some e) in
  exists st',
    process_queue zoho (S fuel) st = process_queue zoho fuel st' /\
    lookup (status_key (id it)) (statuses st') =
      Some (mkStatus (if Nat.ltb n (max_attempts it) then "retrying" else "failed")
              None (Some n) (Some e)) /\
    queue st' = app (if Nat.ltb n (max_attempts it) then [it'] else []) rest /\
    events st' = events st.
Proof.
  intros Hpop Hz n it'.
  rewrite (process_queue_pop zoho fuel st it rest Hpop).
  destruct (process_item zoho it
              (mkState rest (statuses st) (events st) (calls st) (attempted st)))
    as [st1 k] eqn:Hpi.
  unfold process_item in Hpi. cbn [calls] in Hpi. rewrite Hz in Hpi.
  cbv zeta in Hpi. cbn [attempts max_attempts] in Hpi.
  exists st1. subst n it'.
  destruct (Nat.ltb (S (attempts it)) (max_attempts it)) eqn:Hlt;
    injection Hpi as <- <-;
    (split; [destruct (process_queue zoho fuel _) as [[? ?]|]; reflexivity|]);
    cbn; rewrite String.eqb_refl; repeat split.
Qed.

Lemma failed_attempt_outcome_witness :
  let it := mkItem "queue_ab12cd34" "payload" 9 10 "t0" "queued" None in
  let st := mkState [it] [] [] 0 [] in
  (rpop (queue st) = Some (it, []) /\
   (fun _ _ => Failed "503") (calls st) it = Failed "503") /\
  exists st',
    process_queue (fun _ _ => Failed "503") 1 st = process_queue (fun _ _ => Failed "503") 0 st' /\
    lookup (status_key "queue_ab12cd34") (statuses st') =
      Some (mkStatus "failed" None (Some 10) (Some "503")) /\
    queue st' = [].
Proof.
  intros it st.
  split; [split; reflexivity|].
  destruct (failed_attempt_outcome (fun _ _ => Failed "503") 0 st it [] "503"
              eq_refl eq_refl) as (st' & H1 & H2 & H3 & _).
  exists st'. split; [exact H1|]. split; [exact H2|]. rewrite H3. reflexivity.
Defined.

(** The two instances named by the spec. *)
Example attempts_9_of_10_fails_for_good :
  match process_item (fun _ _ => Failed "503")
          (mkItem "queue_a" "d" 9 10 "t0" "queued" None) (mkState [] [] [] 0 []) with
  | (st', _) => queue st' = [] /\ get_ticket_status st' "queue_a" = "failed"
  end.
Proof. vm_compute. split; reflexivity. Qed.

Example attempts_0_is_requeued_with_1 :
  match process_item (fun _ _ => Failed "503")
          (mkItem "queue_a" "d" 0 10 "t0" "queued" None) (mkState [] [] [] 0 []) with
  | (st', _) => map attempts (queue st') = [1%nat] /\
                get_ticket_status st' "queue_a" = "retrying"
  end.
Proof. vm_compute. split; reflexivity. Qed.

(** C7 (as stated, refuted): a requeued item is not left for a later pass.
    [LPUSH] puts it back at the head of the list that the same [while True]
    loop keeps popping from its tail, so with the backend down one call of
    [process_queue] on a single fresh item attempts it ten times and ends
    with it ["failed"]. *)
Lemma same_pass_retry_counterexample :
  match process_queue (fun _ _ => Failed "503") 100
          (mkState [mkItem "queue_a" "d" 0 10 "t0" "queued" None] [] [] 0 []) with
  | Some (cnt, st') =>
      cnt = 0%nat /\ attempted st' = repeat "queue_a" 10 /\
      get_ticket_status st' "queue_a" = "failed" /\ queue st' = []
  | None => False
  end.
Proof. vm_compute. repeat split. Qed.

End QueueFacts.

(** ** Ticket creation endpoint *)
Module TicketApiFacts.

Import TicketApi.
Local Open Scope string_scope.

Lemma prefix_app (p x : string) : String.prefix p (p ++ x) = true.
Proof.
  induction p as [|a p IH]; [destruct x; reflexivity|].
  cbn. destruct (Ascii.ascii_dec a a); [exact IH | congruence].
Qed.

(** C6 (as stated, refuted): with the backend down and the Redis store down
    as well, the [LPUSH] of [add_ticket] raises and the handler answers
    HTTP 500, a bare failure rather than a created or queued id. *)
Lemma create_ticket_store_down_counterexample :
  fst (create_ticket (Queue.Failed "Zoho API timeout") None
         (Some "Error 111 connecting to localhost:6379. Connection refused.") false
         "9f2c4e1ab07d" "payload" "t0" (Queue.mkState [] [] [] 0 [])) =
  HTTPException 500 "Error 111 connecting to localhost:6379. Connection refused.".
Proof. reflexivity. Qed.

(** C6 (amended): a backend-created ticket whose event is published is
    answered with its id and status ["created"].  When backend creation
    fails the request is pushed on the queue: if the push succeeds the
    caller gets a ["queue_"]-prefixed id with status ["queued"] and the
    item is at the head of the list; the stored status of the id is
    ["queued"] only if the status write also succeeded, and is otherwise
    left as it was (for a fresh id, none: ['not_found']).  If the push is
    refused the handler answers HTTP 500 with the error. *)
Theorem create_ticket_outcomes (zoho : Queue.outcome) (push_error : option string)
    (set_ok : bool) (hex data now : string) (st : Queue.state) :
  (forall tid, zoho = Queue.Created tid ->
     fst (create_ticket zoho None push_error set_ok hex data now st) =
       TicketResponse tid "created" "Ticket created successfully") /\
  (forall e, zoho = Queue.Failed e -> push_error = None ->
     exists qid st',
       create_ticket zoho None push_error set_ok hex data now st =
         (TicketResponse qid "queued" "Zoho is unavailable. Ticket queued for processing.", st') /\
       String.prefix "queue_" qid = true /\
       (exists it, Queue.queue st' = it :: Queue.queue st /\ Queue.id it = qid /\
                   Queue.attempts it = 0%nat) /\
       Queue.get_ticket_status st' qid =
         (if set_ok then "queued" else Queue.get_ticket_status st qid)) /\
  (forall e err, zoho = Queue.Failed e -> push_error = Some err ->
     fst (create_ticket zoho None push_error set_ok hex data now st) =
       HTTPException 500 err).
Proof.
  split; [|split].
  - intros tid ->. reflexivity.
  - intros e -> ->. unfold create_ticket, Queue.add_ticket. cbv zeta.
    destruct set_ok.
    + eexists; eexists; split; [reflexivity|].
      split; [exact (prefix_app "queue_" (substring 0 8 hex))|].
      split; [eexists; split; [reflexivity | split; reflexivity]|].
      unfold Queue.get_ticket_status. cbn. rewrite String.eqb_refl. reflexivity.
    + eexists; eexists; split; [reflexivity|].
      split; [exact (prefix_app "queue_" (substring 0 8 hex))|].
      split; [eexists; split; [reflexivity | split; reflexivity]|].
      reflexivity.
  - intros e err -> ->. reflexivity.
Qed.

Lemma create_ticket_outcomes_witness :
  (exists qid st',
    create_ticket (Queue.Failed "Zoho API timeout") None None true "9f2c4e1ab07d" "payload" "t0"
      (Queue.mkState [] [] [] 0 []) =
      (TicketResponse qid "queued" "Zoho is unavailable. Ticket queued for processing.", st') /\
    Queue.get_ticket_status st' qid = "queued") /\
  (exists qid st',
    create_ticket (Queue.Failed "Zoho API timeout") None None false "9f2c4e1ab07d" "payload" "t0"
      (Queue.mkState [] [] [] 0 []) =
      (TicketResponse qid "queued" "Zoho is unavailable. Ticket queued for processing.", st') /\
    Queue.get_ticket_status st' qid = "not_found").
Proof.
  split.
  - destruct (create_ticket_outcomes (Queue.Failed "Zoho API timeout") None true
                "9f2c4e1ab07d" "payload" "t0" (Queue.mkState [] [] [] 0 []))
      as (_ & Hq & _).
    destruct (Hq "Zoho API timeout" eq_refl eq_refl) as (qid & st' & H1 & _ & _ & H4).
    exists qid, st'. split; [exact H1 | exact H4].
  - destruct (create_ticket_outcomes (Queue.Failed "Zoho API timeout") None false
                "9f2c4e1ab07d" "payload" "t0" (Queue.mkState [] [] [] 0 []))
      as (_ & Hq & _).
    destruct (Hq "Zoho API timeout" eq_refl eq_refl) as (qid & st' & H1 & _ & _ & H4).
    exists qid, st'. split; [exact H1 | exact H4].
Defined.

End TicketApiFacts.

(** ** Incident tracker *)
Module TrackerFacts.

Import Tracker.
Local Open Scope Z_scope.
Local Open Scope string_scope.

(** The head of [sort_desc] is an input incident with the greatest
    timestamp. *)
Lemma sort_desc_head (l : list incident) :
  match sort_desc l with
  | [] => l = []
  | h :: _ => In h l /\ forall y, In y l -> timestamp y <= timestamp h
  end.
Proof.
  induction l as [|x l IH]; [reflexivity|].
  cbn [sort_desc fold_right]. fold (sort_desc l).
  destruct (sort_desc l) as [|h t] eqn:E.
  - subst l. cbn. split; [left; reflexivity|].
    intros y [<-|[]]. lia.
  - destruct IH as [Hin Hmax]. cbn [insert_desc].
    destruct (Z.ltb (timestamp x) (timestamp h)) eqn:Hlt.
    + apply Z.ltb_lt in Hlt. split; [right; assumption|].
      intros y [<-|Hy]; [lia | apply Hmax; assumption].
    + apply Z.ltb_ge in Hlt. split; [left; reflexivity|].
      intros y [<-|Hy]; [lia|]. specialize (Hmax y Hy). lia.
Qed.

(** C4: the time-windowed search picks, among the incidents stored for the
    message's context, one with the most recent timestamp, and returns its
    ticket id exactly when [now - timestamp < INCIDENT_TTL] (strict); with
    no stored incident it returns none. *)
Theorem find_recent_incident_window (s : store) (now : Z) (m : message) (gid : string) :
  context_key m = Some gid -> gid <> "" ->
  (incidents_for s gid = [] -> find_recent_incident s now m = None) /\
  (incidents_for s gid <> [] ->
   exists r, In r (incidents_for s gid) /\
     (forall r', In r' (incidents_for s gid) -> timestamp r' <= timestamp r) /\
     find_recent_incident s now m =
       if Z.ltb (now - timestamp r) (INCIDENT_TTL * usec) then Some (ticket_id r) else None).
Proof.
  intros Hk Hne. unfold find_recent_incident. rewrite Hk.
  apply String.eqb_neq in Hne. rewrite Hne.
  pose proof (sort_desc_head (incidents_for s gid)) as Hh.
  split.
  - intros E. rewrite E. reflexivity.
  - intros E. destruct (sort_desc (incidents_for s gid)) as [|h t].
    + contradiction.
    + destruct Hh as [Hin Hmax]. exists h. split; [assumption|]. split; [assumption|].
      reflexivity.
Qed.

Lemma find_recent_incident_window_witness :
  (context_key TrackerFixtures.user_quote_msg = Some TrackerFixtures.group /\
   TrackerFixtures.group <> "") /\
  exists r, In r (incidents_for TrackerFixtures.registered TrackerFixtures.group) /\
    find_recent_incident TrackerFixtures.registered (1800 * usec) TrackerFixtures.user_quote_msg =
      if Z.ltb (1800 * usec - timestamp r) (INCIDENT_TTL * usec) then Some (ticket_id r) else None.
Proof.
  assert (Hk : context_key TrackerFixtures.user_quote_msg = Some TrackerFixtures.group)
    by reflexivity.
  assert (Hn : TrackerFixtures.group <> "") by discriminate.
  split; [split; assumption|].
  destruct (find_recent_incident_window TrackerFixtures.registered (1800 * usec)
              TrackerFixtures.user_quote_msg TrackerFixtures.group Hk Hn) as [_ H].
  destruct H as (r & Hin & _ & Hr); [discriminate|].
  exists r. split; assumption.
Defined.

(** The spec's instances: registered 30 minutes ago it is found, 3 hours
    ago it is not, and exactly at the 2-hour boundary it is not. *)
Example found_after_1800s :
  find_recent_incident TrackerFixtures.registered (1800 * usec) TrackerFixtures.first_msg
  = Some "777".
Proof. vm_compute. reflexivity. Qed.

Example not_found_after_10800s :
  find_recent_incident TrackerFixtures.registered (10800 * usec) TrackerFixtures.first_msg
  = None.
Proof. vm_compute. reflexivity. Qed.

Example not_found_at_boundary :
  find_recent_incident TrackerFixtures.registered (7200 * usec) TrackerFixtures.first_msg
  = None.
Proof. vm_compute. reflexivity. Qed.

(** C3 (as stated, refuted): a reply quoting a user's "Ticket #12345" is
    not resolved from the quote, but [check_existing_incident] goes on to
    the time-windowed search and returns the group's open ticket 777. *)
Lemma quoted_non_bot_counterexample :
  check_existing_incident TrackerFixtures.registered (1800 * usec)
    TrackerFixtures.bot_number TrackerFixtures.user_quote_msg = Some "777".
Proof. vm_compute. reflexivity. Qed.

(** C3 (amended): when the quoted sender does not contain the bot number,
    the quoted-reply step yields nothing whatever the quoted text, and
    [check_existing_incident] returns exactly what the time-windowed search
    returns. *)
Theorem quoted_non_bot_falls_through (s : store) (now : Z) (bot : string)
    (m : message) (q : quoted) :
  m_quoted m = Some q -> contains bot (q_participant q) = false ->
  extract_ticket_from_quoted s bot q = None /\
  check_existing_incident s now bot m =
    (let t := find_recent_incident s now m in if truthy t then t else None).
Proof.
  intros Hq Hc.
  assert (He : extract_ticket_from_quoted s bot q = None)
    by (unfold extract_ticket_from_quoted; rewrite Hc; reflexivity).
  split; [exact He|].
  unfold check_existing_incident. rewrite Hq, He. reflexivity.
Qed.

Lemma quoted_non_bot_falls_through_witness :
  (m_quoted TrackerFixtures.user_quote_msg =
     Some (mkQuoted "Ticket #12345" "5215533334444@s.whatsapp.net") /\
   contains TrackerFixtures.bot_number "5215533334444@s.whatsapp.net" = false) /\
  extract_ticket_from_quoted TrackerFixtures.registered TrackerFixtures.bot_number
    (mkQuoted "Ticket #12345" "5215533334444@s.whatsapp.net") = None.
Proof.
  assert (H1 : m_quoted TrackerFixtures.user_quote_msg =
                 Some (mkQuoted "Ticket #12345" "5215533334444@s.whatsapp.net"))
    by reflexivity.
  assert (H2 : contains TrackerFixtures.bot_number "5215533334444@s.whatsapp.net" = false)
    by (vm_compute; reflexivity).
  split; [split; assumption|].
  exact (proj1 (quoted_non_bot_falls_through TrackerFixtures.registered 0
                  TrackerFixtures.bot_number TrackerFixtures.user_quote_msg _ H1 H2)).
Defined.

(** A reply that quotes the bot's "Ticket #777" message is resolved from
    the quote, even outside the time window. *)
Example quoted_bot_reply_found :
  check_existing_incident TrackerFixtures.registered (10800 * usec) TrackerFixtures.bot_number
    (mkMessage "msg-3" "gracias" (Some "otro@g.us") None None
       (Some (mkQuoted "Tu Ticket #777 fue creado" "5215530482752@s.whatsapp.net")))
  = Some "777".
Proof. vm_compute. reflexivity. Qed.

End TrackerFacts.

(** ** Classification gateway *)
Module GatewayFacts.

Import Gateway.
Local Open Scope string_scope.

(** C5: when the primary and the fallback provider both fail (raise, or
    return nothing usable), [classify_message] still returns a value, the
    conservative default: an incident with confidence 0.1 and category
    ["general_inquiry"]. *)
Theorem classify_both_fail_default (primary fallback : string -> call_result)
    (message_text context_json : string) :
  call_fails (primary (build_classification_prompt message_text context_json)) = true ->
  call_fails (fallback (build_classification_prompt message_text context_json)) = true ->
  let r := classify_message primary fallback message_text context_json in
  r = default_classification /\
  dict_get r "is_support_incident" = Some (PBool true) /\
  dict_get r "confidence" = Some (PNum (1#10)) /\
  dict_get r "category" = Some (PStr "general_inquiry").
Proof.
  intros Hp Hf r. subst r.
  assert (E : classify_message primary fallback message_text context_json
              = default_classification).
  { unfold classify_message.
    destruct (primary _) as [ep|vp]; destruct (fallback _) as [ef|vf];
      cbn [call_fails] in Hp, Hf;
      try (apply negb_true_iff in Hp); try (apply negb_true_iff in Hf);
      try rewrite Hp; try rewrite Hf; reflexivity. }
  rewrite E. repeat split.
Qed.

Lemma classify_both_fail_default_witness :
  (call_fails ((fun _ => Raised "openai: 429 Too Many Requests")
                 (build_classification_prompt "no funciona la caja" "{}")) = true /\
   call_fails ((fun _ => Returned PNone)
                 (build_classification_prompt "no funciona la caja" "{}")) = true) /\
  classify_message (fun _ => Raised "openai: 429 Too Many Requests") (fun _ => Returned PNone)
    "no funciona la caja" "{}" = default_classification.
Proof.
  assert (H1 : call_fails ((fun _ => Raised "openai: 429 Too Many Requests")
                 (build_classification_prompt "no funciona la caja" "{}")) = true)
    by reflexivity.
  assert (H2 : call_fails ((fun _ => Returned PNone)
                 (build_classification_prompt "no funciona la caja" "{}")) = true)
    by reflexivity.
  split; [split; assumption|].
  exact (proj1 (classify_both_fail_default _ _ _ _ H1 H2)).
Defined.

End GatewayFacts.

(** ** Keyword fallback *)
Module FallbackFacts.

Import Fallback.
Local Open Scope string_scope.

Lemma dedup_In (l : list string) (x : string) : In x (dedup l) <-> In x l.
Proof.
  induction l as [|y l IH]; [reflexivity|].
  cbn [dedup]. destruct (existsb (String.eqb y) l) eqn:E.
  - rewrite IH. split; [right; assumption|].
    intros [<-|H]; [|assumption].
    apply existsb_exists in E. destruct E as (z & Hz & Heq).
    apply String.eqb_eq in Heq. subst z. assumption.
  - cbn. rewrite IH. reflexivity.
Qed.

Lemma dedup_NoDup (l : list string) : NoDup (dedup l).
Proof.
  induction l as [|y l IH]; [constructor|].
  cbn [dedup]. destruct (existsb (String.eqb y) l) eqn:E; [assumption|].
  constructor; [|assumption].
  rewrite dedup_In. intros Hin.
  assert (existsb (String.eqb y) l = true)
    by (apply existsb_exists; exists y; split; [assumption | apply String.eqb_refl]).
  congruence.
Qed.

Lemma dedup_order_ok : set_order_ok dedup.
Proof. intros l. split; [apply dedup_NoDup | intros x; apply dedup_In]. Qed.

Lemma rev_dedup_order_ok : set_order_ok (fun l => rev (dedup l)).
Proof.
  intros l. split.
  - apply NoDup_rev, dedup_NoDup.
  - intros x. rewrite <- in_rev. apply dedup_In.
Qed.

(** Two admissible set orders list the same keywords in some order. *)
Lemma set_order_perm (f g : list string -> list string) (l : list string) :
  set_order_ok f -> set_order_ok g -> Permutation (f l) (g l).
Proof.
  intros Hf Hg. destruct (Hf l) as [Nf If]. destruct (Hg l) as [Ng Ig].
  apply NoDup_Permutation; [assumption | assumption |].
  intros x. rewrite If, Ig. reflexivity.
Qed.

Lemma found_words_In (text_lower k : string) :
  In k (found_words text_lower) <->
  (exists e, In e fallback_keywords /\ In k (snd e)) /\ Tracker.contains k text_lower = true.
Proof.
  unfold found_words. rewrite in_flat_map. split.
  - intros (e & He & Hk). apply filter_In in Hk. destruct Hk as [Hk Hc].
    split; [exists e; split|]; assumption.
  - intros ((e & He & Hk) & Hc). exists e. split; [assumption|].
    apply filter_In. split; assumption.
Qed.

(** C9 (as stated, refuted): the result is not determined by the text
    alone.  [list(set(found_words))] iterates the set in hash order, which
    changes with the interpreter's string-hash seed: for "urgente error"
    one admissible order gives trigger words [urgente; error], another
    [error; urgente], and the summaries differ. *)
Lemma fallback_order_counterexample :
  ~ (forall (lower : string -> string) (f1 f2 : list string -> list string),
       set_order_ok f1 -> set_order_ok f2 ->
       forall text, fallback_classification lower f1 text = fallback_classification lower f2 text).
Proof.
  intros H.
  pose proof (H (fun t => t) dedup (fun l => rev (dedup l)) dedup_order_ok
                rev_dedup_order_ok "urgente error") as E.
  apply (f_equal summary) in E. vm_compute in E. discriminate.
Qed.

(** C9 (amended): for any lowering and any admissible set order, the
    fallback is an incident exactly when the lowered text contains an
    urgent/problem keyword; its confidence is [min(0.8, 0.2 * n)] for an
    incident and 0.3 otherwise, [n] being the number of distinct keywords
    of the keyword sets found in the text; the trigger words are exactly
    those keywords, without duplicates; and every field except the order of
    the trigger words and the summary built from them is the same under any
    other admissible set order. *)
Theorem fallback_classification_spec (lower : string -> string)
    (f g : list string -> list string) (text : string) :
  set_order_ok f -> set_order_ok g ->
  let r := fallback_classification lower f text in
  let r' := fallback_classification lower g text in
  let n := List.length (dedup (found_words (lower text))) in
  is_support_incident r = any_in incident_indicators (lower text) /\
  confidence r = (if is_support_incident r
                  then Py.pymin (8#10) (inject_Z (Z.of_nat n) * (2#10)) else 3#10) /\
  NoDup (trigger_words r) /\
  (forall k, In k (trigger_words r) <->
     (exists e, In e fallback_keywords /\ In k (snd e)) /\
     Tracker.contains k (lower text) = true) /\
  trigger_words_count r = n /\
  is_support_incident r' = is_support_incident r /\ confidence r' = confidence r /\
  category r' = category r /\ urgency r' = urgency r /\
  requires_followup r' = requires_followup r /\
  suggested_response r' = suggested_response r /\
  Permutation (trigger_words r') (trigger_words r).
Proof.
  intros Hf Hg r r' n.
  assert (Lf : List.length (f (found_words (lower text))) = n).
  { apply Permutation_length, set_order_perm; [assumption | apply dedup_order_ok]. }
  assert (Lg : List.length (g (found_words (lower text))) = n).
  { apply Permutation_length, set_order_perm; [assumption | apply dedup_order_ok]. }
  subst r r'. unfold fallback_classification, extract_trigger_words.
  cbn zeta.
  destruct (if any_in (keywords_of "urgent") (lower text) then _ else _) as [cat urg].
  cbn [is_support_incident confidence trigger_words trigger_words_count category urgency
       requires_followup suggested_response].
  rewrite Lf, Lg.
  split; [reflexivity|]. split; [reflexivity|].
  split; [apply (proj1 (Hf _))|].
  split; [intros k; rewrite (proj2 (Hf _)); apply found_words_In|].
  repeat (split; [reflexivity|]).
  apply set_order_perm; assumption.
Qed.

Lemma fallback_classification_spec_witness :
  (set_order_ok dedup /\ set_order_ok (fun l => rev (dedup l))) /\
  confidence (fallback_classification (fun t => t) dedup "urgente error") = 4#10.
Proof.
  split; [split; [apply dedup_order_ok | apply rev_dedup_order_ok]|].
  destruct (fallback_classification_spec (fun t => t) dedup (fun l => rev (dedup l))
              "urgente error" dedup_order_ok rev_dedup_order_ok)
    as (_ & Hc & _).
  rewrite Hc. vm_compute. reflexivity.
Defined.

End FallbackFacts.

(** * Further properties of the code *)

(** ** Consensus: the remaining cases and the rounding *)
Module VotingExtra.

Import Voting.
Local Open Scope Q_scope.

(** Review is skipped exactly when both providers answered and agree. *)
Theorem consensus_review_iff_agreement (c o : opinion) :
  r_requiere_revision (consensus c o) = false <->
  es_incidencia c = es_incidencia o /\ es_incidencia c <> None.
Proof.
  unfold consensus, caso_ambos_si, caso_ambos_no, caso_discrepancia, caso_error.
  destruct (es_incidencia c) as [[|]|] eqn:Ec, (es_incidencia o) as [[|]|] eqn:Eo;
    cbn [negb Bool.eqb]; rewrite ?Ec, ?Eo;
    try destruct (Qlt_le_dec _ _); try destruct (Qle_bool _ _); cbn -[Py.round3];
    (split;
     [intro H; first [discriminate H | split; [reflexivity | discriminate]]
     | intros [H1 H2]; first [reflexivity | congruence]]).
Qed.

(** The decision always comes from one of the two inputs; it is [None]
    only when both providers failed, and then confidence is 0 and review is
    required. *)
Theorem consensus_decision_from_inputs (c o : opinion) :
  (r_es_incidencia (consensus c o) = es_incidencia c \/
   r_es_incidencia (consensus c o) = es_incidencia o) /\
  (r_es_incidencia (consensus c o) = None <->
   es_incidencia c = None /\ es_incidencia o = None) /\
  (es_incidencia c = None -> es_incidencia o = None ->
   r_tipo (consensus c o) = error_ambos /\ r_confianza (consensus c o) = 0 /\
   r_requiere_revision (consensus c o) = true).
Proof.
  unfold consensus, caso_ambos_si, caso_ambos_no, caso_discrepancia, caso_error.
  destruct (es_incidencia c) as [[|]|] eqn:Ec, (es_incidencia o) as [[|]|] eqn:Eo;
    cbn [negb Bool.eqb]; rewrite ?Ec, ?Eo;
    try destruct (Qlt_le_dec _ _); try destruct (Qle_bool _ _); cbn -[Py.round3];
    rewrite ?Ec, ?Eo;
    (split; [first [left; reflexivity | right; reflexivity] |]);
    (split;
     [split; [intro H; first [discriminate H | split; reflexivity]
             | intros [H1 H2]; first [reflexivity | discriminate]]
     | intros H1 H2; first [discriminate | repeat split]]).
Qed.

(** Exactly one provider failed: the other one's answer is used with
    confidence [round(c * 0.75, 3)], review is required and the failed
    provider is named. *)
Theorem consensus_partial_error (a b : opinion) :
  (forall x, es_incidencia a = Some x -> es_incidencia b = None ->
     r_tipo (consensus a b) = error_parcial /\
     r_es_incidencia (consensus a b) = Some x /\
     r_confianza (consensus a b) = Py.round3 (confianza a * (75#100)) /\
     r_categoria (consensus a b) = categoria a /\
     r_requiere_revision (consensus a b) = true /\
     r_modelo_con_error (consensus a b) = Some "openai"%string) /\
  (forall y, es_incidencia a = None -> es_incidencia b = Some y ->
     r_tipo (consensus a b) = error_parcial /\
     r_es_incidencia (consensus a b) = Some y /\
     r_confianza (consensus a b) = Py.round3 (confianza b * (75#100)) /\
     r_categoria (consensus a b) = categoria b /\
     r_requiere_revision (consensus a b) = true /\
     r_modelo_con_error (consensus a b) = Some "claude"%string).
Proof.
  split.
  - intros x Ha Hb. unfold consensus, caso_error. rewrite Ha, Hb.
    destruct x; cbn -[Py.round3]; rewrite Ha; repeat split.
  - intros y Ha Hb. unfold consensus, caso_error. rewrite Ha, Hb.
    destruct y; cbn -[Py.round3]; rewrite Hb; repeat split.
Qed.

Lemma consensus_partial_error_witness :
  (es_incidencia (mkOpinion (Some true) (8#10) None None []) = Some true /\
   es_incidencia (mkOpinion None 0 None None []) = None) /\
  r_confianza (consensus (mkOpinion (Some true) (8#10) None None [])
                         (mkOpinion None 0 None None [])) = Py.round3 ((8#10) * (75#100)).
Proof.
  split; [split; reflexivity|].
  exact (proj1 (proj2 (proj2 (proj1 (consensus_partial_error
           (mkOpinion (Some true) (8#10) None None []) (mkOpinion None 0 None None []))
           true eq_refl eq_refl)))).
Defined.

(** Both say "not an incident": the higher confidence is kept (rounded),
    category, priority and metadata are cleared, no review. *)
Theorem consensus_both_no (a b : opinion) :
  es_incidencia a = Some false -> es_incidencia b = Some false ->
  r_tipo (consensus a b) = ambos_no /\
  r_es_incidencia (consensus a b) = Some false /\
  r_confianza (consensus a b) = Py.round3 (Py.pymax (confianza a) (confianza b)) /\
  confianza a <= Py.pymax (confianza a) (confianza b) /\
  confianza b <= Py.pymax (confianza a) (confianza b) /\
  r_categoria (consensus a b) = None /\ r_prioridad (consensus a b) = None /\
  r_metadata (consensus a b) = [] /\ r_requiere_revision (consensus a b) = false.
Proof.
  intros Ha Hb. unfold consensus. rewrite Ha, Hb. cbn -[Py.round3 Py.pymax].
  unfold Py.pymax. destruct (Qle_bool (confianza b) (confianza a)) eqn:E.
  - apply Qle_bool_iff in E. repeat split; try lra.
  - assert (E' : ~ confianza b <= confianza a)
      by (intro C; apply Qle_bool_iff in C; congruence).
    apply Qnot_le_lt in E'. repeat split; lra.
Qed.

Lemma consensus_both_no_witness :
  (es_incidencia (mkOpinion (Some false) (7#10) None None []) = Some false /\
   es_incidencia (mkOpinion (Some false) (95#100) None None []) = Some false) /\
  r_requiere_revision (consensus (mkOpinion (Some false) (7#10) None None [])
                                 (mkOpinion (Some false) (95#100) None None [])) = false.
Proof.
  split; [split; reflexivity|].
  destruct (consensus_both_no (mkOpinion (Some false) (7#10) None None [])
              (mkOpinion (Some false) (95#100) None None []) eq_refl eq_refl)
    as (_ & _ & _ & _ & _ & _ & _ & _ & H).
  exact H.
Defined.

End VotingExtra.

(** ** The retry queue *)
Module QueueExtra.

Import Queue.
Local Open Scope nat_scope.

Lemma rpop_none (l : list item) : rpop l = None -> l = [].
Proof.
  unfold rpop. destruct (rev l) eqn:E; [|discriminate]. intros _.
  apply (f_equal (@rev item)) in E. rewrite rev_involutive in E. exact E.
Qed.

Lemma rpop_some (l r : list item) (x : item) : rpop l = Some (x, r) -> l = r ++ [x].
Proof.
  unfold rpop. destruct (rev l) as [|y r'] eqn:E; [discriminate|].
  intros H. injection H as <- <-.
  rewrite <- (rev_involutive l), E. reflexivity.
Qed.

Lemma process_queue_inv (zoho : nat -> item -> outcome) (fuel : nat)
    (st st' : state) (cnt : nat) :
  process_queue zoho fuel st = Some (cnt, st') ->
  (queue st = [] /\ cnt = 0 /\ st' = st) \/
  exists fuel' it rest st1 k cnt',
    fuel = S fuel' /\ rpop (queue st) = Some (it, rest) /\
    process_item zoho it (mkState rest (statuses st) (events st) (calls st) (attempted st))
      = (st1, k) /\
    process_queue zoho fuel' st1 = Some (cnt', st') /\ cnt = k + cnt'.
Proof.
  destruct fuel as [|fuel']; cbn [process_queue];
    destruct (rpop (queue st)) as [[it rest]|] eqn:Hp.
  - discriminate.
  - intros H. injection H as <- <-. left. split; [apply rpop_none; exact Hp | split; reflexivity].
  - destruct (process_item zoho it _) as [st1 k] eqn:Hpi.
    destruct (process_queue zoho fuel' st1) as [[cnt' st2]|] eqn:Hq; [|discriminate].
    intros H. injection H as <- <-. right.
    exists fuel', it, rest, st1, k, cnt'. repeat split; assumption.
  - intros H. injection H as <- <-. left. split; [apply rpop_none; exact Hp | split; reflexivity].
Qed.

(** What one iteration does to the state it is given. *)
Lemma process_item_cases (zoho : nat -> item -> outcome) (it : item) (st0 st1 : state) (k : nat) :
  process_item zoho it st0 = (st1, k) ->
  calls st1 = S (calls st0) /\ attempted st1 = attempted st0 ++ [id it] /\
  List.length (events st1) = List.length (events st0) + k /\
  exists e, statuses st1 = (status_key (id it), e) :: statuses st0 /\
  ((queue st1 = queue st0 /\
    (st_status e = "completed"%string \/ st_status e = "failed"%string)) \/
   (exists it', queue st1 = it' :: queue st0 /\ id it' = id it /\
      S (attempts it) < max_attempts it /\
      attempts it' = S (attempts it) /\ max_attempts it' = max_attempts it)).
Proof.
  unfold process_item. cbn [calls].
  destruct (zoho (calls st0) it) as [tid|err].
  - intros H. injection H as <- <-. cbn.
    rewrite length_app. cbn. repeat split; try lia.
    eexists. split; [reflexivity|]. left. split; [reflexivity | left; reflexivity].
  - cbv zeta. cbn [attempts max_attempts].
    destruct (Nat.ltb (S (attempts it)) (max_attempts it)) eqn:L;
      intros H; injection H as <- <-; cbn; (repeat split; try lia);
      (eexists; split; [reflexivity|]).
    + right. apply Nat.ltb_lt in L.
      eexists. repeat split; try reflexivity. exact L.
    + left. split; [reflexivity | right; reflexivity].
Qed.

Lemma queue_work_app (l r : list item) : queue_work (l ++ r) = queue_work l + queue_work r.
Proof. unfold queue_work. rewrite map_app, list_sum_app. reflexivity. Qed.

Lemma queue_work_nil (l : list item) : queue_work l = 0 -> l = [].
Proof.
  destruct l as [|x l]; [reflexivity|].
  unfold queue_work. cbn. lia.
Qed.

(** One iteration strictly decreases the outstanding work. *)
Lemma process_item_work (zoho : nat -> item -> outcome) (st : state) (it : item)
    (rest : list item) (st1 : state) (k : nat) :
  rpop (queue st) = Some (it, rest) ->
  process_item zoho it (mkState rest (statuses st) (events st) (calls st) (attempted st))
    = (st1, k) ->
  queue_work (queue st1) < queue_work (queue st).
Proof.
  intros Hp Hpi. apply rpop_some in Hp. rewrite Hp, queue_work_app.
  apply process_item_cases in Hpi as (_ & _ & _ & e & _ & [[Hq _] | (it' & Hq & _ & Hlt & Ha & Hm)]);
    rewrite Hq; cbn [queue].
  - assert (queue_work [it] >= 1) by (unfold queue_work; cbn; lia). lia.
  - change (it' :: rest) with ([it'] ++ rest). rewrite queue_work_app.
    assert (queue_work [it'] + 1 = queue_work [it])
      by (unfold queue_work; cbn; rewrite Ha, Hm; lia).
    lia.
Qed.

(** Whatever the backend answers, [process_queue] finishes within
    [sum (max_attempts - attempts + 1)] iterations. *)
Theorem process_queue_terminates (zoho : nat -> item -> outcome) (fuel : nat) (st : state) :
  queue_work (queue st) <= fuel -> process_queue zoho fuel st <> None.
Proof.
  revert st. induction fuel as [|fuel IH]; intros st Hw.
  - assert (Hq : queue st = []) by (apply queue_work_nil; lia).
    cbn [process_queue]. rewrite Hq. discriminate.
  - cbn [process_queue]. destruct (rpop (queue st)) as [[it rest]|] eqn:Hp; [|discriminate].
    destruct (process_item zoho it _) as [st1 k] eqn:Hpi.
    pose proof (process_item_work zoho st it rest st1 k Hp Hpi) as Hlt.
    specialize (IH st1 ltac:(lia)).
    destruct (process_queue zoho fuel st1) as [[c s2]|]; [discriminate | contradiction].
Qed.

Lemma process_queue_terminates_witness :
  queue_work (queue QueueFixtures.sample_state) <= 13 /\
  process_queue QueueFixtures.zoho_down 13 QueueFixtures.sample_state <> None.
Proof.
  split; [vm_compute; lia | apply process_queue_terminates; vm_compute; lia].
Defined.

Lemma string_app_inv_l (p a b : string) : (p ++ a = p ++ b)%string -> a = b.
Proof.
  induction p as [|c p IH]; cbn; intros H; [exact H|].
  injection H as H. exact (IH H).
Qed.

Lemma get_status_push (st0 st1 : state) (i j : string) (e : status_entry) :
  statuses st1 = (status_key j, e) :: statuses st0 ->
  get_ticket_status st1 i =
    if String.eqb i j then st_status e else get_ticket_status st0 i.
Proof.
  intros Hs. unfold get_ticket_status. rewrite Hs. cbn [lookup].
  destruct (String.eqb i j) eqn:E.
  - apply String.eqb_eq in E. subst. rewrite String.eqb_refl. reflexivity.
  - destruct (String.eqb (status_key i) (status_key j)) eqn:E2; [|reflexivity].
    apply String.eqb_eq, string_app_inv_l in E2. apply String.eqb_neq in E. contradiction.
Qed.

Lemma process_item_settled (zoho : nat -> item -> outcome) (st : state) (it : item)
    (rest : list item) (st1 : state) (k : nat) :
  rpop (queue st) = Some (it, rest) ->
  process_item zoho it (mkState rest (statuses st) (events st) (calls st) (attempted st))
    = (st1, k) ->
  (forall i, In i (attempted st) ->
     (get_ticket_status st i = "completed"%string \/ get_ticket_status st i = "failed"%string) \/
     exists x, In x (queue st) /\ id x = i) ->
  forall i, In i (attempted st1) ->
     (get_ticket_status st1 i = "completed"%string \/ get_ticket_status st1 i = "failed"%string) \/
     exists x, In x (queue st1) /\ id x = i.
Proof.
  intros Hp Hpi Hinv i Hi.
  apply rpop_some in Hp.
  apply process_item_cases in Hpi as (_ & Ha & _ & e & Hs & Hcase).
  cbn [attempted statuses queue] in Ha, Hs, Hcase.
  rewrite (get_status_push st st1 i (id it) e Hs).
  destruct (String.eqb i (id it)) eqn:E.
  - apply String.eqb_eq in E. subst i.
    destruct Hcase as [[_ Hf] | (it' & Hq & Hid & _)].
    + left. exact Hf.
    + right. exists it'. rewrite Hq. split; [left; reflexivity | exact Hid].
  - apply String.eqb_neq in E.
    rewrite Ha in Hi. apply in_app_or in Hi as [Hi | [Hi | []]]; [| congruence].
    destruct (Hinv i Hi) as [Hf | (x & Hx & Hid)]; [left; exact Hf|].
    right. exists x. rewrite Hp in Hx. apply in_app_or in Hx as [Hx | [Hx | []]].
    + split; [| exact Hid].
      destruct Hcase as [[Hq _] | (it' & Hq & _)]; rewrite Hq; [exact Hx | right; exact Hx].
    + subst x. congruence.
Qed.

Lemma process_queue_settled_all (zoho : nat -> item -> outcome) (fuel : nat)
    (st st' : state) (cnt : nat) :
  (forall i, In i (attempted st) ->
     (get_ticket_status st i = "completed"%string \/ get_ticket_status st i = "failed"%string) \/
     exists x, In x (queue st) /\ id x = i) ->
  process_queue zoho fuel st = Some (cnt, st') ->
  forall i, In i (attempted st') ->
    get_ticket_status st' i = "completed"%string \/ get_ticket_status st' i = "failed"%string.
Proof.
  revert st cnt. induction fuel as [|fuel IH]; intros st cnt Hinv H;
    apply process_queue_inv in H as [(Hq & _ & ->) | (f' & it & rest & st1 & k & cnt' & Hf & Hp & Hpi & Hr & _)].
  1, 3: intros i Hi; destruct (Hinv i Hi) as [Hf | (x & Hx & _)];
        [exact Hf | rewrite Hq in Hx; destruct Hx].
  - discriminate.
  - injection Hf as <-.
    exact (IH st1 cnt' (process_item_settled zoho st it rest st1 k Hp Hpi Hinv) Hr).
Qed.

Lemma process_queue_attempted (zoho : nat -> item -> outcome) (fuel : nat)
    (st st' : state) (cnt : nat) :
  process_queue zoho fuel st = Some (cnt, st') ->
  (forall i, In i (attempted st) -> In i (attempted st')) /\
  (forall x, In x (queue st) -> In (id x) (attempted st')).
Proof.
  revert st cnt. induction fuel as [|fuel IH]; intros st cnt H;
    apply process_queue_inv in H as [(Hq & _ & ->) | (f' & it & rest & st1 & k & cnt' & Hf & Hp & Hpi & Hr & _)].
  1, 3: split; [tauto | intros x Hx; rewrite Hq in Hx; destruct Hx].
  - discriminate.
  - injection Hf as <-.
    destruct (IH st1 cnt' Hr) as [Ha' Hq'].
    apply rpop_some in Hp.
    apply process_item_cases in Hpi as (_ & Ha & _ & e & _ & Hcase).
    cbn [attempted queue] in Ha, Hcase.
    split.
    + intros i Hi. apply Ha'. rewrite Ha. apply in_or_app. left. exact Hi.
    + intros x Hx. rewrite Hp in Hx. apply in_app_or in Hx as [Hx | [<- | []]].
      * apply Hq'. destruct Hcase as [[Hq _] | (it' & Hq & _)]; rewrite Hq;
          [exact Hx | right; exact Hx].
      * apply Ha'. rewrite Ha. apply in_or_app. right. left. reflexivity.
Qed.

(** Every item handed to [process_queue] ends up attempted and with the
    status ["completed"] or ["failed"]: none is left ["queued"] or
    ["retrying"]. *)
Theorem process_queue_settles (zoho : nat -> item -> outcome) (fuel : nat)
    (st st' : state) (cnt : nat) :
  (forall i, In i (attempted st) ->
     (get_ticket_status st i = "completed"%string \/ get_ticket_status st i = "failed"%string) \/
     exists x, In x (queue st) /\ id x = i) ->
  process_queue zoho fuel st = Some (cnt, st') ->
  forall x, In x (queue st) ->
    In (id x) (attempted st') /\
    (get_ticket_status st' (id x) = "completed"%string \/
     get_ticket_status st' (id x) = "failed"%string).
Proof.
  intros Hinv H x Hx.
  pose proof (proj2 (process_queue_attempted zoho fuel st st' cnt H) x Hx) as Hin.
  split; [exact Hin | exact (process_queue_settled_all zoho fuel st st' cnt Hinv H _ Hin)].
Qed.

Lemma process_queue_settles_witness :
  process_queue QueueFixtures.zoho_flaky 30 QueueFixtures.sample_state
    = Some (QueueFixtures.sample_count, QueueFixtures.sample_final) /\
  get_ticket_status QueueFixtures.sample_final (id QueueFixtures.item_a) = "completed"%string /\
  get_ticket_status QueueFixtures.sample_final (id QueueFixtures.item_b) = "failed"%string /\
  (In (id QueueFixtures.item_a) (attempted QueueFixtures.sample_final) /\
   (get_ticket_status QueueFixtures.sample_final (id QueueFixtures.item_a) = "completed"%string \/
    get_ticket_status QueueFixtures.sample_final (id QueueFixtures.item_a) = "failed"%string)).
Proof.
  assert (H : process_queue QueueFixtures.zoho_flaky 30 QueueFixtures.sample_state
                = Some (QueueFixtures.sample_count, QueueFixtures.sample_final))
    by (vm_compute; reflexivity).
  split; [exact H|]. split; [vm_compute; reflexivity|]. split; [vm_compute; reflexivity|].
  apply (process_queue_settles QueueFixtures.zoho_flaky 30 QueueFixtures.sample_state
           QueueFixtures.sample_final QueueFixtures.sample_count).
  - intros i [].
  - exact H.
  - right. left. reflexivity.
Defined.

End QueueExtra.

(** ** [GET /tickets/{ticket_id}] after a queued creation *)
Module StatusExtra.

Local Open Scope string_scope.

(** A creation answered ["queued"] with a fresh queue id can be looked up
    at once: the status endpoint recognises the ["queue_"] id and reports
    ["queued"] when both the status write and the status read went
    through, and ['not_found'] when either failed; it never asks the
    backend. *)
Theorem queued_ticket_status (zoho : Queue.outcome) (publish_error push_error : option string)
    (set_ok read_ok : bool) (hex data now : string) (st st' : Queue.state)
    (qid msg : string) (zoho_status : string -> string + string) :
  TicketApi.create_ticket zoho publish_error push_error set_ok hex data now st
    = (TicketApi.TicketResponse qid "queued" msg, st') ->
  Queue.get_ticket_status st qid = "not_found" ->
  TicketStatusApi.get_ticket_status read_ok zoho_status st' qid
    = TicketStatusApi.TicketStatus qid (if set_ok && read_ok then "queued" else "not_found").
Proof.
  unfold TicketApi.create_ticket, Queue.add_ticket. cbv zeta.
  destruct zoho as [tid|err]; [destruct publish_error as [perr|]|];
    destruct push_error as [perr'|]; intros H Hfresh; try discriminate H;
    try (injection H; intros; discriminate).
  all: destruct set_ok; injection H as <- <- <-.
  all: unfold TicketStatusApi.get_ticket_status.
  all: pose proof (TicketApiFacts.prefix_app "queue_" (substring 0 8 hex)) as Hp;
       cbn [append] in Hp, Hfresh |- *; rewrite Hp.
  all: destruct read_ok; cbn [andb]; try reflexivity.
  all: try exact (f_equal _ Hfresh).
  all: unfold Queue.get_ticket_status, Queue.set_status, Queue.lpush; cbn [Queue.statuses Queue.lookup].
  all: rewrite String.eqb_refl; reflexivity.
Qed.

Lemma queued_ticket_status_witness :
  TicketApi.create_ticket (Queue.Failed "Zoho API timeout") None None false
    "deadbeef00112233" "{}" "2024-01-01T12:00:00" (Queue.mkState [] [] [] 0 [])
  = (TicketApi.TicketResponse "queue_deadbeef" "queued"
       "Zoho is unavailable. Ticket queued for processing.",
     snd (TicketApi.create_ticket (Queue.Failed "Zoho API timeout") None None false
            "deadbeef00112233" "{}" "2024-01-01T12:00:00" (Queue.mkState [] [] [] 0 []))) /\
  Queue.get_ticket_status (Queue.mkState [] [] [] 0 []) "queue_deadbeef" = "not_found" /\
  TicketStatusApi.get_ticket_status true (fun _ => inl "Zoho API timeout")
    (snd (TicketApi.create_ticket (Queue.Failed "Zoho API timeout") None None false
            "deadbeef00112233" "{}" "2024-01-01T12:00:00" (Queue.mkState [] [] [] 0 [])))
    "queue_deadbeef" = TicketStatusApi.TicketStatus "queue_deadbeef" "not_found".
Proof.
  assert (H : TicketApi.create_ticket (Queue.Failed "Zoho API timeout") None None false
    "deadbeef00112233" "{}" "2024-01-01T12:00:00" (Queue.mkState [] [] [] 0 [])
  = (TicketApi.TicketResponse "queue_deadbeef" "queued"
       "Zoho is unavailable. Ticket queued for processing.",
     snd (TicketApi.create_ticket (Queue.Failed "Zoho API timeout") None None false
            "deadbeef00112233" "{}" "2024-01-01T12:00:00" (Queue.mkState [] [] [] 0 []))))
    by reflexivity.
  assert (Hf : Queue.get_ticket_status (Queue.mkState [] [] [] 0 []) "queue_deadbeef"
               = "not_found") by reflexivity.
  split; [exact H|]. split; [exact Hf|].
  exact (queued_ticket_status _ _ _ _ true _ _ _ _ _ _ _ (fun _ => inl "Zoho API timeout") H Hf).
Defined.

End StatusExtra.

(** ** Conversation tracker: registration, lookup and threads *)
Module TrackerExtra.

Import Tracker TrackerThread.
Local Open Scope Z_scope.
Local Open Scope string_scope.

Lemma glob_star_cons (r : string) (c : Ascii.ascii) (s : string) :
  glob (String "*" r) (String c s) = glob r (String c s) || glob (String "*" r) s.
Proof. reflexivity. Qed.

Lemma glob_star_nil (r : string) : glob (String "*" r) "" = glob r "".
Proof. cbn. apply orb_false_r. Qed.

(** A [*] absorbs any prefix. *)
Lemma glob_star_app (r x y : string) : glob r y = true -> glob (String "*" r) (x ++ y) = true.
Proof.
  intros H. induction x as [|c x IH]; cbn [append].
  - destruct y as [|c y]; [rewrite glob_star_nil; exact H|].
    rewrite glob_star_cons, H. reflexivity.
  - rewrite glob_star_cons, IH, orb_true_r. reflexivity.
Qed.

(** A pattern matches its own text, metacharacters included, and a common
    prefix can be matched literally. *)
Lemma glob_app_same (p r s : string) : glob r s = true -> glob (p ++ r) (p ++ s) = true.
Proof.
  intros H. induction p as [|c p IH]; [exact H|]. cbn [append].
  destruct (Ascii.eqb c "*"%char) eqn:E.
  - apply Ascii.eqb_eq in E. subst c.
    rewrite glob_star_cons. apply orb_true_iff. right.
    exact (glob_star_app (p ++ r) "" (p ++ s) IH).
  - cbn [glob]. rewrite E, Ascii.eqb_refl, orb_true_r. exact IH.
Qed.

Lemma string_app_nil_r (s : string) : s ++ "" = s.
Proof. induction s as [|c s IH]; cbn; [reflexivity | rewrite IH; reflexivity]. Qed.

Lemma glob_refl (p : string) : glob p p = true.
Proof.
  rewrite <- (string_app_nil_r p). apply glob_app_same. reflexivity.
Qed.

(** The key [register_incident] writes matches the pattern of
    [is_ticket_active] and [add_message_to_thread] for its ticket... *)
Lemma active_pattern_matches (gid tid : string) :
  glob (TICKET_PREFIX ++ "*:" ++ tid) (TICKET_PREFIX ++ gid ++ ":" ++ tid) = true.
Proof.
  apply glob_app_same. change ("*:" ++ tid) with (String "*" (":" ++ tid)).
  apply glob_star_app. apply glob_refl.
Qed.

(** ... and the pattern of [_find_recent_incident] for its context. *)
Lemma context_pattern_matches (gid tid : string) :
  glob (TICKET_PREFIX ++ gid ++ ":*") (TICKET_PREFIX ++ gid ++ ":" ++ tid) = true.
Proof.
  apply glob_app_same. apply glob_app_same.
  change (glob (":" ++ "*") (":" ++ tid) = true). apply glob_app_same.
  rewrite <- (string_app_nil_r tid). apply (glob_star_app "" tid ""). reflexivity.
Qed.

Lemma lookup_In {A} (k : string) (l : list (string * A)) (v : A) :
  Queue.lookup k l = Some v -> In (k, v) l.
Proof.
  induction l as [|[k' v'] l IH]; cbn; [discriminate|].
  destruct (String.eqb k k') eqn:E; intros H.
  - injection H as <-. apply String.eqb_eq in E. subst. left. reflexivity.
  - right. exact (IH H).
Qed.

Lemma lookup_filter_other {A} (k k' : string) (l : list (string * A)) :
  k' <> k ->
  Queue.lookup k' (filter (fun e => negb (String.eqb (fst e) k)) l) = Queue.lookup k' l.
Proof.
  intros Hne. induction l as [|[k1 v1] l IH]; [reflexivity|].
  cbn [filter fst]. destruct (String.eqb k1 k) eqn:E; cbn [negb].
  - apply String.eqb_eq in E. subst k1. cbn [Queue.lookup].
    destruct (String.eqb k' k) eqn:E2; [apply String.eqb_eq in E2; contradiction | exact IH].
  - cbn [Queue.lookup]. rewrite IH. reflexivity.
Qed.

Lemma get_cache_set_cache (s : store) (k k' : string) (v : incident) :
  get_cache (set_cache s k v) k' = if String.eqb k' k then Some v else get_cache s k'.
Proof.
  unfold get_cache, set_cache. cbn [Queue.lookup].
  destruct (String.eqb k' k) eqn:E; [reflexivity|].
  apply String.eqb_neq in E. apply lookup_filter_other. exact E.
Qed.

Lemma In_set_cache (s : store) (k : string) (v : incident) (e : string * incident) :
  In e (set_cache s k v) -> e = (k, v) \/ In e s.
Proof.
  unfold set_cache. intros [<-|H]; [left; reflexivity|].
  right. apply filter_In in H. tauto.
Qed.

Lemma scan_keys_set_cache (s : store) (k pat : string) (v : incident) :
  glob pat k = true ->
  scan_keys (set_cache s k v) pat =
    k :: scan_keys (filter (fun e => negb (String.eqb (fst e) k)) s) pat.
Proof. intros H. unfold scan_keys, set_cache. cbn [filter fst]. rewrite H. reflexivity. Qed.

(** An incident at least as recent as all others comes first after the
    stable newest-first sort. *)
Lemma sort_desc_top (v : incident) (l : list incident) :
  (forall y, In y l -> timestamp y <= timestamp v) ->
  exists t, sort_desc (v :: l) = v :: t.
Proof.
  intros H. cbn [sort_desc fold_right]. fold (sort_desc l).
  pose proof (TrackerFacts.sort_desc_head l) as Hh.
  destruct (sort_desc l) as [|h t].
  - exists []. reflexivity.
  - exists (h :: t). destruct Hh as [Hin _]. cbn [insert_desc].
    specialize (H h Hin).
    destruct (Z.ltb (timestamp v) (timestamp h)) eqn:E; [apply Z.ltb_lt in E; lia | reflexivity].
Qed.

Lemma register_key (s : store) (t : Z) (m : message) (tid : string) :
  register_incident s t m tid =
  set_cache s (TICKET_PREFIX ++ (match context_key m with Some g => g | None => "None" end)
                 ++ ":" ++ tid)
    (mkIncident tid (m_id m) (match context_key m with Some g => g | None => "None" end)
       (py_or (m_from_user m) (m_participant m)) t (substring 0 200 (m_text m)) [m_id m] t).
Proof. reflexivity. Qed.

Lemma incidents_for_register (s : store) (t : Z) (m : message) (tid gid : string) :
  context_key m = Some gid ->
  exists rest,
    incidents_for (register_incident s t m tid) gid =
      mkIncident tid (m_id m) gid (py_or (m_from_user m) (m_participant m)) t
        (substring 0 200 (m_text m)) [m_id m] t :: rest /\
    forall r, In r rest -> timestamp r = t \/ exists k, In (k, r) s.
Proof.
  intros Hk. rewrite register_key, Hk. unfold incidents_for.
  rewrite scan_keys_set_cache by apply context_pattern_matches.
  cbn [flat_map]. rewrite get_cache_set_cache, String.eqb_refl.
  eexists. split; [reflexivity|].
  intros r Hr. apply in_flat_map in Hr as (k' & _ & Hr).
  destruct (get_cache _ k') as [d|] eqn:E; [|destruct Hr].
  destruct Hr as [<-|[]].
  unfold get_cache in E. apply lookup_In, In_set_cache in E as [E|E].
  - left. injection E as _ ->. reflexivity.
  - right. exists k'. exact E.
Qed.

Lemma is_ticket_active_register (s : store) (t : Z) (m : message) (tid : string) :
  is_ticket_active (register_incident s t m tid) tid = true.
Proof.
  unfold is_ticket_active. rewrite register_key.
  rewrite scan_keys_set_cache by apply active_pattern_matches. reflexivity.
Qed.

Lemma search_ticket_unfold (lit s : string) :
  search_ticket lit s =
    match match strip_prefix lit s with
          | Some rest => match digit_run rest with EmptyString => None | d => Some d end
          | None => None
          end with
    | Some d => Some d
    | None => match s with EmptyString => None | String _ s' => search_ticket lit s' end
    end.
Proof. destruct s; reflexivity. Qed.

Lemma strip_prefix_app (p x : string) : strip_prefix p (p ++ x) = Some x.
Proof.
  induction p as [|c p IH]; [destruct x; reflexivity|].
  cbn [append strip_prefix]. rewrite Ascii.eqb_refl. exact IH.
Qed.

Lemma digit_run_digits (d post : string) :
  all_digits d = true -> digit_run post = "" -> digit_run (d ++ post) = d.
Proof.
  unfold all_digits. intros Hd Hp. induction d as [|c d IH]; [exact Hp|].
  cbn [list_ascii_of_string forallb] in Hd. apply andb_prop in Hd as [Hc Hd].
  cbn [append digit_run]. rewrite Hc, (IH Hd). reflexivity.
Qed.

Lemma truthy_or_none (o : option string) (t : string) :
  (if truthy o then o else None) = Some t -> t <> "" /\ o = Some t.
Proof.
  destruct o as [x|]; cbn; [|discriminate].
  destruct (String.eqb x "") eqn:E; cbn; [discriminate|].
  intros H. injection H as <-. split; [apply String.eqb_neq; exact E | reflexivity].
Qed.

Lemma extract_sound (s : store) (bot : string) (q : quoted) (tid : string) :
  extract_ticket_from_quoted s bot q = Some tid ->
  contains bot (q_participant q) = true /\ is_ticket_active s tid = true.
Proof.
  unfold extract_ticket_from_quoted.
  destruct (contains bot (q_participant q)); cbn [negb]; [|discriminate].
  intros H. split; [reflexivity|]. revert H. generalize patterns as ps.
  induction ps as [|p ps IH]; intros H; [discriminate H|].
  cbv beta iota fix in H.
  destruct (search_ticket p (q_text q)) as [t|]; [|exact (IH H)].
  destruct (is_ticket_active s t) eqn:E; [injection H as <-; exact E | exact (IH H)].
Qed.

Lemma find_recent_sound (s : store) (now : Z) (m : message) (tid : string) :
  find_recent_incident s now m = Some tid ->
  exists gid r, context_key m = Some gid /\ In r (incidents_for s gid) /\
    ticket_id r = tid /\ now - timestamp r < INCIDENT_TTL * usec.
Proof.
  unfold find_recent_incident.
  destruct (context_key m) as [gid|]; [|discriminate].
  destruct (String.eqb gid ""); [discriminate|].
  pose proof (TrackerFacts.sort_desc_head (incidents_for s gid)) as Hh.
  destruct (sort_desc (incidents_for s gid)) as [|r t]; [discriminate|].
  destruct (Z.ltb (now - timestamp r) (INCIDENT_TTL * usec)) eqn:E; [|discriminate].
  intros H. injection H as <-. apply Z.ltb_lt in E. destruct Hh as [Hin _].
  exists gid, r. repeat split; assumption.
Qed.

Lemma ends_number_digit_run (post : string) : ends_number post = true -> digit_run post = "".
Proof.
  destruct post as [|c post]; [reflexivity|]. cbn [ends_number digit_run].
  destruct (is_digit c); [rewrite andb_false_r; discriminate | reflexivity].
Qed.

(** Registering a ticket and then, while its key is alive ([INCIDENT_TTL]
    seconds after the registration), quoting the bot's ["Ticket #<id>"]
    reply finds the ticket again.  The registration write is the one that
    went through, and the text after the number does not continue it. *)
Theorem register_then_quote (s : store) (t now : Z) (m m' : message)
    (bot tid post : string) (q : quoted) :
  all_digits tid = true -> tid <> "" -> ends_number post = true ->
  t <= now -> now - t < INCIDENT_TTL * usec ->
  m_quoted m' = Some q -> contains bot (q_participant q) = true ->
  q_text q = "Ticket #" ++ tid ++ post ->
  check_existing_incident (register_incident s t m tid) now bot m' = Some tid.
Proof.
  intros Hd Hne Hend _ _ Hq Hbot Htext.
  pose proof (ends_number_digit_run post Hend) as Hpost.
  unfold check_existing_incident. rewrite Hq.
  unfold extract_ticket_from_quoted. rewrite Hbot. cbn [negb].
  unfold patterns. cbv beta iota fix.
  rewrite Htext, search_ticket_unfold, strip_prefix_app, (digit_run_digits tid post Hd Hpost).
  destruct tid as [|c tid']; [contradiction|].
  rewrite is_ticket_active_register.
  cbn [truthy]. destruct (String.eqb (String c tid') "") eqn:E; [discriminate|].
  reflexivity.
Qed.

Lemma register_then_quote_witness :
  (all_digits "777" = true /\ "777" <> "" /\ ends_number " creado" = true /\
   0 <= 10 * usec /\ 10 * usec - 0 < INCIDENT_TTL * usec /\
   m_quoted (mkMessage "msg-9" "sigue igual" (Some TrackerFixtures.group) None None
               (Some (mkQuoted "Ticket #777 creado" "5215530482752@s.whatsapp.net")))
     = Some (mkQuoted "Ticket #777 creado" "5215530482752@s.whatsapp.net") /\
   contains TrackerFixtures.bot_number "5215530482752@s.whatsapp.net" = true /\
   "Ticket #777 creado" = "Ticket #" ++ "777" ++ " creado") /\
  check_existing_incident (register_incident [] 0 TrackerFixtures.first_msg "777") (10 * usec)
    TrackerFixtures.bot_number
    (mkMessage "msg-9" "sigue igual" (Some TrackerFixtures.group) None None
       (Some (mkQuoted "Ticket #777 creado" "5215530482752@s.whatsapp.net"))) = Some "777".
Proof.
  split; [repeat split; try reflexivity; try discriminate; unfold usec, INCIDENT_TTL; lia|].
  apply (register_then_quote [] 0 (10 * usec) TrackerFixtures.first_msg _ _ "777" " creado"
           (mkQuoted "Ticket #777 creado" "5215530482752@s.whatsapp.net"));
    try reflexivity; try discriminate; unfold usec, INCIDENT_TTL; lia.
Defined.

(** Registering a ticket and then asking for the recent incident of the
    same context returns it while [now - t < INCIDENT_TTL], and nothing
    afterwards, provided every other stored incident is strictly older
    than the registration: the registered incident is then the unique
    newest one, whatever order [SCAN] returns the keys in (after
    [INCIDENT_TTL] its key has expired, and any older incident still
    stored is outside the window as well). *)
Theorem register_then_recent (s : store) (t now : Z) (m m' : message) (tid gid : string) :
  context_key m = Some gid -> context_key m' = Some gid -> gid <> "" ->
  (forall k r, In (k, r) s -> timestamp r < t) ->
  find_recent_incident (register_incident s t m tid) now m' =
    (if Z.ltb (now - t) (INCIDENT_TTL * usec) then Some tid else None) /\
  (m_quoted m' = None -> tid <> "" -> now - t < INCIDENT_TTL * usec ->
   forall bot, check_existing_incident (register_incident s t m tid) now bot m' = Some tid).
Proof.
  intros Hk Hk' Hne Hold.
  assert (Hf : find_recent_incident (register_incident s t m tid) now m' =
                 (if Z.ltb (now - t) (INCIDENT_TTL * usec) then Some tid else None)).
  { unfold find_recent_incident. rewrite Hk'.
    apply String.eqb_neq in Hne. rewrite Hne.
    destruct (incidents_for_register s t m tid gid Hk) as (rest & Hr & Hin).
    rewrite Hr.
    destruct (sort_desc_top
                (mkIncident tid (m_id m) gid (py_or (m_from_user m) (m_participant m)) t
                   (substring 0 200 (m_text m)) [m_id m] t) rest) as (tl & Hs).
    { intros y Hy. cbn [timestamp].
      destruct (Hin y Hy) as [->|(k & Hk2)]; [lia | exact (Z.lt_le_incl _ _ (Hold k y Hk2))]. }
    rewrite Hs. reflexivity. }
  split; [exact Hf|].
  intros Hq Htid Hw bot. unfold check_existing_incident. rewrite Hq. cbn [truthy].
  rewrite Hf. apply Z.ltb_lt in Hw. rewrite Hw. cbn [truthy].
  apply String.eqb_neq in Htid. rewrite Htid. reflexivity.
Qed.

Lemma register_then_recent_witness :
  (context_key TrackerFixtures.first_msg = Some TrackerFixtures.group /\
   context_key (mkMessage "msg-3" "ya reiniciamos" (Some TrackerFixtures.group) None None None)
     = Some TrackerFixtures.group /\
   TrackerFixtures.group <> "") /\
  find_recent_incident (register_incident [] 0 TrackerFixtures.first_msg "777") (1800 * usec)
    (mkMessage "msg-3" "ya reiniciamos" (Some TrackerFixtures.group) None None None)
  = (if Z.ltb (1800 * usec - 0) (INCIDENT_TTL * usec) then Some "777" else None).
Proof.
  split; [split; [reflexivity | split; [reflexivity | discriminate]]|].
  exact (proj1 (register_then_recent [] 0 (1800 * usec) TrackerFixtures.first_msg
           (mkMessage "msg-3" "ya reiniciamos" (Some TrackerFixtures.group) None None None)
           "777" TrackerFixtures.group eq_refl eq_refl ltac:(discriminate)
           (fun k r (H : In (k, r) []) => match H with end))).
Defined.

(** [check_existing_incident] only returns a non-empty ticket id that is
    either quoted from a bot message and still active, or the ticket of a
    stored incident of the message's context that is inside the window. *)
Theorem check_existing_sound (s : store) (now : Z) (bot : string) (m : message) (tid : string) :
  check_existing_incident s now bot m = Some tid ->
  tid <> "" /\
  ((exists q, m_quoted m = Some q /\ contains bot (q_participant q) = true /\
              is_ticket_active s tid = true) \/
   (exists gid r, context_key m = Some gid /\ In r (incidents_for s gid) /\
      ticket_id r = tid /\ now - timestamp r < INCIDENT_TTL * usec)).
Proof.
  unfold check_existing_incident. intros H.
  destruct (truthy (match m_quoted m with
                    | Some q => extract_ticket_from_quoted s bot q
                    | None => None end)) eqn:T.
  - rewrite H in T. cbn [truthy] in T. apply negb_true_iff, String.eqb_neq in T.
    split; [exact T|]. left.
    destruct (m_quoted m) as [q|]; [|discriminate].
    apply extract_sound in H as [Hb Ha]. exists q. repeat split; assumption.
  - apply truthy_or_none in H as [Hne H]. split; [exact Hne|]. right.
    exact (find_recent_sound s now m tid H).
Qed.

Lemma check_existing_sound_witness :
  check_existing_incident TrackerFixtures.registered (10 * usec) TrackerFixtures.bot_number
    (mkMessage "msg-5" "sigue sin sistema" (Some TrackerFixtures.group) None None None)
    = Some "777" /\
  "777" <> "".
Proof.
  assert (H : check_existing_incident TrackerFixtures.registered (10 * usec)
                TrackerFixtures.bot_number
                (mkMessage "msg-5" "sigue sin sistema" (Some TrackerFixtures.group) None None None)
              = Some "777") by (vm_compute; reflexivity).
  split; [exact H | exact (proj1 (check_existing_sound _ _ _ _ _ H))].
Defined.

(** Registering then, while the key is alive, adding a message to the
    thread: the message id is appended after the original one,
    [last_update] moves to the new instant, the registration instant is
    kept.  No other key of the store names the ticket, so the key found by
    [SCAN] is the registered one whatever the scan order. *)
Theorem register_then_thread (s : store) (t now : Z) (m : message) (tid mid : string) :
  scan_keys s (TICKET_PREFIX ++ "*:" ++ tid) = [] ->
  t <= now -> now - t < INCIDENT_TTL * usec ->
  fst (add_message_to_thread (register_incident s t m tid) now tid mid) = true /\
  exists inc,
    scan_keys (snd (add_message_to_thread (register_incident s t m tid) now tid mid))
      (TICKET_PREFIX ++ "*:" ++ tid) <> [] /\
    get_cache (snd (add_message_to_thread (register_incident s t m tid) now tid mid))
      (TICKET_PREFIX ++ (match context_key m with Some g => g | None => "None" end)
         ++ ":" ++ tid) = Some inc /\
    ticket_id inc = tid /\ thread_messages inc = [m_id m; mid] /\
    timestamp inc = t /\ last_update inc = now.
Proof.
  intros _ _ _.
  unfold add_message_to_thread. rewrite register_key.
  rewrite scan_keys_set_cache by apply active_pattern_matches.
  rewrite get_cache_set_cache, String.eqb_refl. cbn [fst snd].
  split; [reflexivity|].
  eexists. split; [rewrite scan_keys_set_cache by apply active_pattern_matches; discriminate|].
  rewrite get_cache_set_cache, String.eqb_refl.
  split; [reflexivity|]. repeat split.
Qed.

Lemma register_then_thread_witness :
  (scan_keys [] (TICKET_PREFIX ++ "*:" ++ "777") = [] /\
   0 <= 600 * usec /\ 600 * usec - 0 < INCIDENT_TTL * usec) /\
  fst (add_message_to_thread (register_incident [] 0 TrackerFixtures.first_msg "777")
         (600 * usec) "777" "msg-2") = true.
Proof.
  split; [split; [reflexivity | unfold usec, INCIDENT_TTL; lia]|].
  exact (proj1 (register_then_thread [] 0 (600 * usec) TrackerFixtures.first_msg "777" "msg-2"
           eq_refl ltac:(unfold usec; lia) ltac:(unfold usec, INCIDENT_TTL; lia))).
Defined.

(** [add_message_to_thread] leaves the store alone when the ticket has no
    key, and otherwise touches only the first matching key. *)
Theorem add_message_to_thread_frame (s : store) (now : Z) (tid mid : string) :
  (scan_keys s (TICKET_PREFIX ++ "*:" ++ tid) = [] ->
   add_message_to_thread s now tid mid = (false, s)) /\
  (forall key keys inc,
     scan_keys s (TICKET_PREFIX ++ "*:" ++ tid) = key :: keys -> get_cache s key = Some inc ->
     fst (add_message_to_thread s now tid mid) = true /\
     (exists inc', get_cache (snd (add_message_to_thread s now tid mid)) key = Some inc' /\
        thread_messages inc' = app (thread_messages inc) [mid] /\
        ticket_id inc' = ticket_id inc /\ group_id inc' = group_id inc /\
        timestamp inc' = timestamp inc /\ last_update inc' = now) /\
     (forall k, k <> key ->
        get_cache (snd (add_message_to_thread s now tid mid)) k = get_cache s k)).
Proof.
  unfold add_message_to_thread. split.
  - intros H. rewrite H. reflexivity.
  - intros key keys inc H Hc. rewrite H, Hc. cbn [fst snd].
    split; [reflexivity|]. split.
    + rewrite get_cache_set_cache, String.eqb_refl. eexists. repeat split.
    + intros k Hk. rewrite get_cache_set_cache.
      apply String.eqb_neq in Hk. rewrite Hk. reflexivity.
Qed.

Lemma add_message_to_thread_frame_witness :
  (scan_keys TrackerFixtures.registered (TICKET_PREFIX ++ "*:" ++ "778") = [] /\
   add_message_to_thread TrackerFixtures.registered (5 * usec) "778" "msg-4"
     = (false, TrackerFixtures.registered)) /\
  (scan_keys TrackerFixtures.registered (TICKET_PREFIX ++ "*:" ++ "777")
     = [TICKET_PREFIX ++ TrackerFixtures.group ++ ":" ++ "777"] /\
   get_cache TrackerFixtures.registered (TICKET_PREFIX ++ TrackerFixtures.group ++ ":" ++ "777")
     = Some (mkIncident "777" "msg-1" TrackerFixtures.group
               (Some "5215511112222@s.whatsapp.net") 0
               (m_text TrackerFixtures.first_msg) ["msg-1"] 0) /\
   fst (add_message_to_thread TrackerFixtures.registered (5 * usec) "777" "msg-4") = true /\
   (exists inc',
      get_cache (snd (add_message_to_thread TrackerFixtures.registered (5 * usec) "777" "msg-4"))
        (TICKET_PREFIX ++ TrackerFixtures.group ++ ":" ++ "777") = Some inc' /\
      thread_messages inc' = ["msg-1"; "msg-4"] /\ last_update inc' = 5 * usec)).
Proof.
  assert (H : scan_keys TrackerFixtures.registered (TICKET_PREFIX ++ "*:" ++ "778") = [])
    by reflexivity.
  split; [split; [exact H | exact (proj1 (add_message_to_thread_frame _ _ _ _) H)]|].
  assert (Hs : scan_keys TrackerFixtures.registered (TICKET_PREFIX ++ "*:" ++ "777")
                 = [TICKET_PREFIX ++ TrackerFixtures.group ++ ":" ++ "777"]) by reflexivity.
  assert (Hc : get_cache TrackerFixtures.registered
                 (TICKET_PREFIX ++ TrackerFixtures.group ++ ":" ++ "777")
               = Some (mkIncident "777" "msg-1" TrackerFixtures.group
                         (Some "5215511112222@s.whatsapp.net") 0
                         (m_text TrackerFixtures.first_msg) ["msg-1"] 0)) by reflexivity.
  destruct (proj2 (add_message_to_thread_frame TrackerFixtures.registered (5 * usec) "777" "msg-4")
              _ _ _ Hs Hc) as (Hok & (inc' & Hg & Ht & _ & _ & _ & Hl) & _).
  split; [exact Hs|]. split; [exact Hc|]. split; [exact Hok|].
  exists inc'. split; [exact Hg|]. split; [exact Ht | exact Hl].
Defined.

(** After a successful [add_message_to_thread], [get_thread_summary]
    shows the same incident with the new message id last in its thread. *)
Theorem thread_update_visible (s : store) (now : Z) (tid mid : string) :
  fst (add_message_to_thread s now tid mid) = true ->
  exists inc inc',
    get_thread_summary s tid = Some inc /\
    get_thread_summary (snd (add_message_to_thread s now tid mid)) tid = Some inc' /\
    thread_messages inc' = app (thread_messages inc) [mid] /\
    last_update inc' = now /\ ticket_id inc' = ticket_id inc /\
    timestamp inc' = timestamp inc.
Proof.
  unfold add_message_to_thread, get_thread_summary.
  destruct (scan_keys s (TICKET_PREFIX ++ "*:" ++ tid)) as [|key keys] eqn:Hs; [discriminate|].
  destruct (get_cache s key) as [inc|] eqn:Hc; [|discriminate].
  intros _. cbn [snd].
  assert (Hg : glob (TICKET_PREFIX ++ "*:" ++ tid) key = true).
  { assert (Hin : In key (scan_keys s (TICKET_PREFIX ++ "*:" ++ tid)))
      by (rewrite Hs; left; reflexivity).
    unfold scan_keys in Hin. apply in_map_iff in Hin as ([k v] & Hk & Hin).
    apply filter_In in Hin as [_ Hm]. cbn [fst] in Hk, Hm. subst k. exact Hm. }
  rewrite scan_keys_set_cache by exact Hg. rewrite get_cache_set_cache, String.eqb_refl.
  exists inc. eexists. split; [reflexivity|]. split; [reflexivity|]. repeat split.
Qed.

Lemma thread_update_visible_witness :
  fst (add_message_to_thread TrackerFixtures.registered (5 * usec) "777" "msg-4") = true /\
  exists inc inc',
    get_thread_summary TrackerFixtures.registered "777" = Some inc /\
    get_thread_summary (snd (add_message_to_thread TrackerFixtures.registered (5 * usec)
                              "777" "msg-4")) "777" = Some inc' /\
    thread_messages inc' = app (thread_messages inc) ["msg-4"] /\
    last_update inc' = 5 * usec /\ ticket_id inc' = ticket_id inc /\
    timestamp inc' = timestamp inc.
Proof.
  assert (H : fst (add_message_to_thread TrackerFixtures.registered (5 * usec) "777" "msg-4")
              = true) by reflexivity.
  split; [exact H | exact (thread_update_visible _ _ _ _ H)].
Defined.

End TrackerExtra.

(** ** Model gateway *)
Module GatewayExtra.

Import Gateway.
Local Open Scope string_scope.

(** [classify_message] always hands back a truthy result: a truthy answer of
    the primary provider (which then wins), else a truthy answer of the
    fallback provider, else the default classification. *)
Theorem classify_message_result (primary fallback : string -> call_result)
    (text ctx : string) :
  let prompt := build_classification_prompt text ctx in
  truthy (classify_message primary fallback text ctx) = true /\
  (classify_message primary fallback text ctx = default_classification \/
   exists v, truthy v = true /\ classify_message primary fallback text ctx = v /\
     (primary prompt = Returned v \/ fallback prompt = Returned v)) /\
  (forall v, primary prompt = Returned v -> truthy v = true ->
     classify_message primary fallback text ctx = v).
Proof.
  intros prompt. unfold classify_message. cbv zeta. fold prompt.
  assert (Hd : truthy default_classification = true) by reflexivity.
  destruct (primary prompt) as [e1|v1] eqn:P.
  - destruct (fallback prompt) as [e2|v2] eqn:F; [|destruct (truthy v2) eqn:T2].
    + split; [exact Hd|]. split; [left; reflexivity|]. intros v Hv. discriminate Hv.
    + split; [exact T2|]. split; [right; exists v2; auto|]. intros v Hv. discriminate Hv.
    + split; [exact Hd|]. split; [left; reflexivity|]. intros v Hv. discriminate Hv.
  - destruct (truthy v1) eqn:T1.
    + split; [exact T1|]. split; [right; exists v1; auto|].
      intros v Hv _. injection Hv as <-. reflexivity.
    + assert (H3 : forall v, Returned v1 = Returned v -> truthy v = true -> False)
        by (intros v Hv Ht; injection Hv as <-; congruence).
      destruct (fallback prompt) as [e2|v2] eqn:F; [|destruct (truthy v2) eqn:T2].
      * split; [exact Hd|]. split; [left; reflexivity|]. intros v Hv Ht. destruct (H3 v Hv Ht).
      * split; [exact T2|]. split; [right; exists v2; auto|].
        intros v Hv Ht. destruct (H3 v Hv Ht).
      * split; [exact Hd|]. split; [left; reflexivity|]. intros v Hv Ht. destruct (H3 v Hv Ht).
Qed.

End GatewayExtra.

(** ** Keyword fallback classifier *)
Module FallbackExtra.

Import Fallback.
Local Open Scope Q_scope.

Lemma nat_Q_le (a b : nat) : (a <= b)%nat -> inject_Z (Z.of_nat a) <= inject_Z (Z.of_nat b).
Proof. intros H. rewrite <- Zle_Qle. lia. Qed.

Lemma fallback_confidence_scaled (n : nat) :
  Qle_bool (6#10) (Py.pymin (8#10) (inject_Z (Z.of_nat n) * (2#10))) = Nat.leb 3 n /\
  0 <= Py.pymin (8#10) (inject_Z (Z.of_nat n) * (2#10)) <= 8#10.
Proof.
  pose proof (nat_Q_le 0 n ltac:(lia)) as Hz0. change (inject_Z (Z.of_nat 0)) with 0 in Hz0.
  set (z := inject_Z (Z.of_nat n)) in *.
  unfold Py.pymin. destruct (Qle_bool (8#10) (z * (2#10))) eqn:E.
  - apply Qle_bool_iff in E.
    assert (Hn : (3 <= n)%nat).
    { destruct (Nat.le_gt_cases 3 n) as [H|H]; [exact H|]. exfalso.
      pose proof (nat_Q_le n 2 ltac:(lia)) as H2.
      change (inject_Z (Z.of_nat 2)) with 2 in H2. fold z in H2. lra. }
    rewrite (proj2 (Nat.leb_le 3 n) Hn). split; [apply Qle_bool_iff; lra | lra].
  - assert (E' : z * (2#10) < 8#10).
    { apply Qnot_le_lt. intro C. apply Qle_bool_iff in C. congruence. }
    split; [|lra].
    destruct (Nat.leb 3 n) eqn:L.
    + apply Nat.leb_le in L. pose proof (nat_Q_le 3 n L) as H3.
      change (inject_Z (Z.of_nat 3)) with 3 in H3. fold z in H3. apply Qle_bool_iff. lra.
    + apply Nat.leb_gt in L. pose proof (nat_Q_le n 2 ltac:(lia)) as H2.
      change (inject_Z (Z.of_nat 2)) with 2 in H2. fold z in H2.
      destruct (Qle_bool (6#10) (z * (2#10))) eqn:F; [apply Qle_bool_iff in F; lra | reflexivity].
Qed.

(** The keyword fallback asks for follow-up unless it found an incident
    with at least three distinct trigger words, and its confidence never
    leaves [0, 0.8]. *)
Theorem fallback_followup (lower : string -> string) (set_list : list string -> list string)
    (text : string) :
  requires_followup (fallback_classification lower set_list text) =
    negb (is_support_incident (fallback_classification lower set_list text) &&
          Nat.leb 3 (trigger_words_count (fallback_classification lower set_list text))) /\
  0 <= confidence (fallback_classification lower set_list text) <= 8#10.
Proof.
  unfold fallback_classification, extract_trigger_words. cbv zeta.
  destruct (if any_in (keywords_of "urgent") (lower text) then _ else _) as [cat urg].
  cbn [requires_followup is_support_incident trigger_words_count confidence].
  destruct (fallback_confidence_scaled (List.length (set_list (found_words (lower text)))))
    as [Hf Hr].
  destruct (any_in incident_indicators (lower text)).
  - rewrite Hf. split; [reflexivity | exact Hr].
  - split; [reflexivity | lra].
Qed.

(** A message with one of the urgent keywords is an incident of category
    ["technical"] and urgency ["critical"], with at least one trigger word
    and a confidence between 0.2 and 0.8. *)
Theorem fallback_urgent (lower : string -> string) (set_list : list string -> list string)
    (text : string) :
  set_order_ok set_list ->
  any_in (keywords_of "urgent") (lower text) = true ->
  is_support_incident (fallback_classification lower set_list text) = true /\
  category (fallback_classification lower set_list text) = "technical"%string /\
  urgency (fallback_classification lower set_list text) = "critical"%string /\
  (1 <= trigger_words_count (fallback_classification lower set_list text))%nat /\
  2#10 <= confidence (fallback_classification lower set_list text) <= 8#10.
Proof.
  intros Hs Hu.
  assert (Hi : any_in incident_indicators (lower text) = true).
  { unfold any_in, incident_indicators in *. rewrite existsb_app, Hu. reflexivity. }
  assert (Hn : (1 <= List.length (set_list (found_words (lower text))))%nat).
  { unfold any_in in Hu. apply existsb_exists in Hu as (k & Hk & Hc).
    assert (Hf : In k (found_words (lower text))).
    { apply FallbackFacts.found_words_In. split; [|exact Hc].
      exists ("urgent"%string, keywords_of "urgent"). split; [left; reflexivity | exact Hk]. }
    apply (proj2 (Hs _)) in Hf.
    destruct (set_list (found_words (lower text))); [destruct Hf | cbn; lia]. }
  unfold fallback_classification, extract_trigger_words. cbv zeta.
  rewrite Hu, Hi.
  cbn [is_support_incident category urgency trigger_words_count confidence].
  split; [reflexivity|]. split; [reflexivity|]. split; [reflexivity|]. split; [exact Hn|].
  pose proof (nat_Q_le 1 _ Hn) as H1. change (inject_Z (Z.of_nat 1)) with 1 in H1.
  set (z := inject_Z (Z.of_nat (List.length (set_list (found_words (lower text)))))) in *.
  unfold Py.pymin. destruct (Qle_bool (8#10) (z * (2#10))) eqn:E.
  - split; [lra|]. apply Qle_refl.
  - assert (E' : z * (2#10) < 8#10).
    { apply Qnot_le_lt. intro C. apply Qle_bool_iff in C. congruence. }
    split; lra.
Qed.

Lemma fallback_urgent_witness :
  (set_order_ok dedup /\ any_in (keywords_of "urgent") "el pos no funciona" = true) /\
  urgency (fallback_classification (fun t => t) dedup "el pos no funciona") = "critical"%string.
Proof.
  split; [split; [exact FallbackFacts.dedup_order_ok | reflexivity]|].
  exact (proj1 (proj2 (proj2 (fallback_urgent (fun t => t) dedup "el pos no funciona"
           FallbackFacts.dedup_order_ok eq_refl)))).
Defined.

End FallbackExtra.

(** ** Comparison metadata of the consensus *)
Module VotingCompareExtra.

Import Voting VotingCompare.
Local Open Scope nat_scope.

Lemma compara_campo_len (ig di : string) (x y : option string) :
  List.length (fst (compara_campo ig di x y)) + List.length (snd (compara_campo ig di x y)) <= 1 /\
  List.length (fst (compara_campo ig di y x)) = List.length (fst (compara_campo ig di x y)) /\
  List.length (snd (compara_campo ig di y x)) = List.length (snd (compara_campo ig di x y)).
Proof.
  unfold compara_campo. destruct x as [a|], y as [b|]; cbn [opt_eqb Tracker.truthy];
    rewrite ?(String.eqb_sym b a);
    repeat match goal with |- context [String.eqb ?u ?v] => destruct (String.eqb u v) end;
    cbn; lia.
Qed.

(** [_generar_comparacion] reports the yes/no classification exactly once
    (as a difference or an agreement) and category and priority at most
    once each; swapping the two models changes no count; and a
    disagreement on the classification always comes first among the
    differences. *)
Theorem comparacion_counts (c o : opinion) :
  1 <= List.length (fst (generar_comparacion c o)) + List.length (snd (generar_comparacion c o)) <= 3 /\
  List.length (fst (generar_comparacion o c)) = List.length (fst (generar_comparacion c o)) /\
  List.length (snd (generar_comparacion o c)) = List.length (snd (generar_comparacion c o)) /\
  (es_incidencia c <> es_incidencia o ->
   exists rest, fst (generar_comparacion c o) =
     ("Clasificación: Claude=" ++ repr_opt_bool (es_incidencia c)
      ++ ", OpenAI=" ++ repr_opt_bool (es_incidencia o))%string :: rest).
Proof.
  unfold generar_comparacion. cbv zeta. cbn [fst snd]. rewrite !length_app.
  destruct (compara_campo_len "Misma categoría: " "Categoría: " (categoria c) (categoria o))
    as (K1 & K2 & K3).
  destruct (compara_campo_len "Misma prioridad: " "Prioridad: " (prioridad c) (prioridad o))
    as (P1 & P2 & P3).
  rewrite K2, K3, P2, P3.
  destruct (es_incidencia c) as [[|]|], (es_incidencia o) as [[|]|]; cbn [opt_eqb Bool.eqb];
    cbn [fst snd List.length];
    (split; [lia|]); (split; [reflexivity|]); (split; [reflexivity|]);
    intros H; first [contradiction H; reflexivity | eexists; reflexivity].
Qed.

End VotingCompareExtra.
